(** * DDPG agent: a shallow embedding of [agents/actor_critic_agents/DDPG.py]

    The agent couples four networks (actor/critic, local/target), a replay
    buffer and an exploration process.  The Python class mutates [self];
    here [self] is an explicit record threaded through a state-and-error
    monad.  The calls that matter for the order of learning (sampling, the
    two gradient functions, optimisation steps, soft updates, learning-rate
    writes, acting and storing) are appended to a call log kept in the
    record, so that statements about their order can be made.

    Numbers.  Tensor entries are float32 in the source.  In the model of
    the agent they are exact rationals ([Q]), compared with [==]: that
    model is about which calls are made, in which order and on which
    objects, and about the algebra of the losses; rounding, overflow and
    not-a-number values are outside it.  The computation of the critic
    targets is modelled a second time in float32 arithmetic (module [F32],
    on the IEEE 754 specification of the standard library), where
    non-finite values exist.  What the autodiff backend hands back (a loss
    value and a gradient) is never inspected by DDPG.py and is kept
    abstract. *)

From Stdlib Require Import QArith Qabs ZArith List Bool Arith Lia Lqa.
From Stdlib Require Floats.SpecFloat.
Import ListNotations.

(** ** Errors and results *)

Inductive Error : Type :=
| ShapeMismatchError
| InsufficientDataError
| ZeroDivisionError.

Inductive result (A : Type) : Type :=
| Ok (a : A)
| Raise (e : Error).

Arguments Ok {A} a.
Arguments Raise {A} e.

Definition rbind {A B : Type} (r : result A) (k : A -> result B) : result B :=
  match r with
  | Ok a => k a
  | Raise e => Raise e
  end.

Declare Scope res_scope.
Delimit Scope res_scope with res.
Notation "'let?' x ':=' c 'in' k" := (rbind c (fun x => k))
  (at level 10, x pattern, c at level 200, k at level 200) : res_scope.

(** ** Tensors

    A tensor of shape (B, 1) is a [Column]; a tensor of shape (B, d) is a
    [Matrix], one row per sample of the batch. *)

Definition Column : Type := list Q.
Definition Matrix : Type := list (list Q).
Definition Params : Type := list Q.

Module Tensor.

Fixpoint zip_with (f : Q -> Q -> Q) (xs ys : Column) : Column :=
  match xs, ys with
  | x :: xs', y :: ys' => f x y :: zip_with f xs' ys'
  | _, _ => []
  end.

(** Elementwise binary operator on (B,1) tensors with the broadcasting of
    the first axis: equal sizes, or one of the sizes is 1. *)
Definition broadcast (f : Q -> Q -> Q) (xs ys : Column) : result Column :=
  if Nat.eqb (length xs) (length ys) then Ok (zip_with f xs ys)
  else match xs, ys with
       | [x], _ => Ok (map (fun y => f x y) ys)
       | _, [y] => Ok (map (fun x => f x y) xs)
       | _, _ => Raise ShapeMismatchError
       end.

(** [c * t] for a Python float [c]. *)
Definition scale (c : Q) (t : Column) : Column := map (Qmult c) t.

(** [c - t] for a Python float [c]. *)
Definition rsub (c : Q) (t : Column) : Column := map (fun x => c - x) t.

Fixpoint cat_rows (a b : Matrix) : Matrix :=
  match a, b with
  | r :: a', s :: b' => (r ++ s) :: cat_rows a' b'
  | _, _ => []
  end.

(** [ops.cat((a, b), axis=1)]: the row counts must agree. *)
Definition cat_axis1 (a b : Matrix) : result Matrix :=
  if Nat.eqb (length a) (length b) then Ok (cat_rows a b)
  else Raise ShapeMismatchError.

Definition sum (t : Column) : Q := fold_right Qplus 0 t.

(** [t.mean()].  On an empty tensor the source yields not-a-number; the
    value here is then 0 and no statement below relies on it. *)
Definition mean (t : Column) : Q := sum t / inject_Z (Z.of_nat (length t)).

(** [ops.mse_loss(input, target)] with the default mean reduction. *)
Definition mse_loss (input target : Column) : result Q :=
  (let? d := broadcast (fun x y => (x - y) * (x - y)) input target in
   Ok (mean d))%res.

End Tensor.

(** ** Hyperparameters

    [config.hyperparameters] is a nested dict keyed by "Actor" and
    "Critic" plus top-level entries; it is read-only after construction. *)

Record NetHyper : Type := {
  learning_rate : Q;
  gradient_clipping_norm : Q;
  tau : Q;
  buffer_size : Z
}.

Record Hyperparameters : Type := {
  Actor : NetHyper;
  Critic : NetHyper;
  batch_size : Z;
  discount_rate : Q;
  update_every_n_steps : Z;
  learning_updates_per_learning_session : Z
}.

(** ** Services of the base agent that update parameters *)

(** Positional overwrite of [tgt] by a function of [src] and [tgt]: the
    target keeps its own shape. *)
Fixpoint map_onto (f : Q -> Q -> Q) (src tgt : Params) : Params :=
  match tgt with
  | [] => []
  | t :: tgt' =>
      match src with
      | [] => tgt
      | l :: src' => f l t :: map_onto f src' tgt'
      end
  end.

(** Modelled from the spec: [Base_Agent.soft_update_of_target_network] is
    not part of the sources at hand.  The spec gives
    theta_target <- tau * theta_local + (1 - tau) * theta_target,
    elementwise over all parameters. *)
Definition soft_update_of_target_network (local target : Params) (tau : Q) : Params :=
  map_onto (fun l t => tau * l + (1 - tau) * t) local target.

(** Modelled from the spec: [Base_Agent.copy_model_over(from_model, to_model)]
    is not part of the sources at hand.  It writes the parameters of the
    first model onto the second one. *)
Definition copy_model_over (from_model to_model : Params) : Params :=
  map_onto (fun l _ => l) from_model to_model.

(** [k] soft updates in a row towards the same local parameters. *)
Fixpoint soft_updates (k : nat) (local target : Params) (tau : Q) : Params :=
  match k with
  | O => target
  | S k' => soft_update_of_target_network local (soft_updates k' local target tau) tau
  end.

(** ** Transitions, batches and the replay buffer *)

Record Transition : Type := {
  t_state : list Q;
  t_action : list Q;
  t_reward : Q;
  t_next_state : list Q;
  t_done : bool
}.

(** What [memory.sample()] returns: five tensors aligned by index. *)
Record Batch : Type := {
  states : Matrix;
  actions : Matrix;
  rewards : Column;
  next_states : Matrix;
  dones : Column
}.

Definition Q_of_bool (b : bool) : Q := if b then 1 else 0.

Definition decompose (ts : list Transition) : Batch :=
  {| states := map t_state ts;
     actions := map t_action ts;
     rewards := map t_reward ts;
     next_states := map t_next_state ts;
     dones := map (fun t => Q_of_bool (t_done t)) ts |}.

(** ** Collaborators

    Everything DDPG.py obtains from elsewhere and whose inside it never
    looks at: the two architectures built by [create_NN], the autodiff
    backend behind [ms.value_and_grad], the optimiser applied by
    [take_optimisation_step], the environment, the exploration noise and
    the random generator of the replay buffer. *)

(** [key_to_use] of [create_NN]. *)
Inductive Key : Type := ActorKey | CriticKey.

(** The four network objects and the two optimiser objects of the agent;
    methods of the base agent receive them by reference. *)
Inductive Model : Type := CriticLocal | CriticTarget | ActorLocal | ActorTarget.

Inductive OptimizerRef : Type := CriticOptimizer | ActorOptimizer.

Record Optimizer (OptState : Type) : Type := {
  opt_learning_rate : Q;
  opt_eps : Q;
  opt_state : OptState
}.

Arguments opt_learning_rate {OptState} _.
Arguments opt_eps {OptState} _.
Arguments opt_state {OptState} _.

Record Collaborators : Type := {
  Grads : Type;
  LossValue : Type;
  OptState : Type;
  Env : Type;
  Noise : Type;
  Rng : Type;
  Init : Type;
  (** forward pass of the actor architecture on a batch of states; [None]
      when the input does not have the width the network was built for *)
  actor_net : Params -> Matrix -> option Matrix;
  (** forward pass of the critic architecture on a batch of state-action rows;
      output_dim is 1, so the result is a column *)
  critic_net : Params -> Matrix -> option Column;
  (** loss value and gradient with respect to the weights, as the backend
      computes them for a loss that is a function of the weights *)
  autodiff : (Params -> result Q) -> Params -> LossValue * Grads;
  (** gradient clipping followed by one optimiser update of the weights *)
  optimiser_update : Optimizer OptState -> Params -> Grads -> Q -> Optimizer OptState * Params;
  fresh_opt_state : Params -> OptState;
  env_step : Env -> list Q -> Env * (list Q * Q * bool);
  perturb_action : Noise -> Matrix -> Matrix * Noise;
  new_noise : Z -> Noise;
  random_sample : Rng -> list Transition -> nat -> list Transition * Rng;
  seed_rng : Z -> Rng;
  create_NN : Init -> Z -> Z -> Key -> Params * Init
}.

(** Modelled from the spec: [Replay_Buffer] is not part of the sources at
    hand.  A fixed-capacity store; insertion evicts the oldest entry when
    full; sampling draws [batch_size] stored transitions at random, leaves
    the contents alone and fails with [InsufficientDataError] when fewer
    than [batch_size] transitions are stored. *)
Record Replay_Buffer (R : Type) : Type := {
  contents : list Transition;
  capacity : Z;
  rb_batch_size : Z;
  rng : R
}.

Arguments contents {R} _.
Arguments capacity {R} _.
Arguments rb_batch_size {R} _.
Arguments rng {R} _.

(** Modelled from the spec: the constructor [Replay_Buffer(buffer_size,
    batch_size, seed)] is not part of the sources at hand; the buffer
    starts empty. *)
Definition new_Replay_Buffer {R : Type} (buffer_size batch_size : Z) (r : R) : Replay_Buffer R :=
  {| contents := []; capacity := buffer_size; rb_batch_size := batch_size; rng := r |}.

(** Modelled from the spec: [Replay_Buffer.add_experience] is not part of
    the sources at hand; it appends and, beyond the capacity, drops the
    oldest entries. *)
Definition add_experience {R : Type} (m : Replay_Buffer R) (t : Transition) : Replay_Buffer R :=
  let c := contents m ++ [t] in
  {| contents := skipn (length c - Z.to_nat (capacity m)) c;
     capacity := capacity m;
     rb_batch_size := rb_batch_size m;
     rng := rng m |}.

Definition buffer_len {R : Type} (m : Replay_Buffer R) : Z := Z.of_nat (length (contents m)).

(** Calls to collaborators, in the order in which they are made. *)
Inductive Call : Type :=
| CallConductAction (a : list Q)
| CallSample (b : Batch)
| CallCriticGrad (states actions : Matrix) (critic_targets : Column)
| CallActorGrad (states : Matrix)
| CallOptimisationStep (o : OptimizerRef)
| CallSoftUpdate (local target : Model)
| CallUpdateLearningRate (lr : Q) (o : OptimizerRef)
| CallSaveExperience (t : Transition).

Definition is_sample (c : Call) : bool :=
  match c with CallSample _ => true | _ => false end.

Definition is_optimisation_step (o : OptimizerRef) (c : Call) : bool :=
  match c, o with
  | CallOptimisationStep CriticOptimizer, CriticOptimizer => true
  | CallOptimisationStep ActorOptimizer, ActorOptimizer => true
  | _, _ => false
  end.

Definition count_calls (p : Call -> bool) (l : list Call) : nat := length (filter p l).

(** The calls of one pass through the inner loop of [step], for the batch
    [b] and the critic targets [y]; [d] tells whether the episode has just
    ended. *)
Definition update_calls (h : Hyperparameters) (d : bool) (b : Batch) (y : Column) : list Call :=
  [CallSample b;
   CallCriticGrad (states b) (actions b) y;
   CallOptimisationStep CriticOptimizer;
   CallSoftUpdate CriticLocal CriticTarget]
  ++ (if d then [CallUpdateLearningRate (learning_rate (Actor h)) ActorOptimizer] else [])
  ++ [CallActorGrad (states b);
      CallOptimisationStep ActorOptimizer;
      CallSoftUpdate ActorLocal ActorTarget].

(** Python's [a % b] on integers: the sign follows the divisor, and a zero
    divisor raises. *)
Definition py_mod (a b : Z) : result Z :=
  if Z.eqb b 0 then Raise ZeroDivisionError else Ok (Z.modulo a b).

(** Calling a network: a wrong input width surfaces as a shape error. *)
Definition forward {A : Type} (o : option A) : result A :=
  match o with
  | Some a => Ok a
  | None => Raise ShapeMismatchError
  end.

(** A computation whose only failure is a shape error. *)
Definition shape_only {A : Type} (r : result A) : Prop :=
  forall e, r = Raise e -> e = ShapeMismatchError.

(** The calls of a learning session of [n] passes through the inner loop. *)
Inductive session_calls (h : Hyperparameters) (d : bool) : nat -> list Call -> Prop :=
| session_done : session_calls h d O []
| session_more (n : nat) (b : Batch) (y : Column) (rest : list Call) :
    session_calls h d n rest ->
    session_calls h d (S n) (update_calls h d b y ++ rest).

(** [t.squeeze(0)] on a tensor whose first axis has size 1. *)
Definition squeeze0 (m : Matrix) : result (list Q) :=
  match m with
  | [r] => Ok r
  | _ => Raise ShapeMismatchError
  end.

(** ** The agent *)

Section DDPG.

Variable C : Collaborators.

(** The attributes of [self] that DDPG.py reads or writes, and the call
    log. *)
Record Agent : Type := {
  hyperparameters : Hyperparameters;
  critic_local : Params;
  critic_target : Params;
  critic_optimizer : Optimizer (OptState C);
  memory : Replay_Buffer (Rng C);
  actor_local : Params;
  actor_target : Params;
  actor_optimizer : Optimizer (OptState C);
  exploration_strategy : Noise C;
  environment : Env C;
  state : list Q;
  next_state : list Q;
  action : list Q;
  reward : Q;
  done : bool;
  global_step_number : Z;
  episode_number : Z;
  calls : list Call
}.

Definition set_critic_local (s : Agent) (p : Params) : Agent :=
  {| hyperparameters := hyperparameters s; critic_local := p;
     critic_target := critic_target s; critic_optimizer := critic_optimizer s;
     memory := memory s; actor_local := actor_local s;
     actor_target := actor_target s; actor_optimizer := actor_optimizer s;
     exploration_strategy := exploration_strategy s; environment := environment s;
     state := state s; next_state := next_state s; action := action s;
     reward := reward s; done := done s;
     global_step_number := global_step_number s;
     episode_number := episode_number s; calls := calls s |}.

Definition set_critic_target (s : Agent) (p : Params) : Agent :=
  {| hyperparameters := hyperparameters s; critic_local := critic_local s;
     critic_target := p; critic_optimizer := critic_optimizer s;
     memory := memory s; actor_local := actor_local s;
     actor_target := actor_target s; actor_optimizer := actor_optimizer s;
     exploration_strategy := exploration_strategy s; environment := environment s;
     state := state s; next_state := next_state s; action := action s;
     reward := reward s; done := done s;
     global_step_number := global_step_number s;
     episode_number := episode_number s; calls := calls s |}.

Definition set_actor_local (s : Agent) (p : Params) : Agent :=
  {| hyperparameters := hyperparameters s; critic_local := critic_local s;
     critic_target := critic_target s; critic_optimizer := critic_optimizer s;
     memory := memory s; actor_local := p;
     actor_target := actor_target s; actor_optimizer := actor_optimizer s;
     exploration_strategy := exploration_strategy s; environment := environment s;
     state := state s; next_state := next_state s; action := action s;
     reward := reward s; done := done s;
     global_step_number := global_step_number s;
     episode_number := episode_number s; calls := calls s |}.

Definition set_actor_target (s : Agent) (p : Params) : Agent :=
  {| hyperparameters := hyperparameters s; critic_local := critic_local s;
     critic_target := critic_target s; critic_optimizer := critic_optimizer s;
     memory := memory s; actor_local := actor_local s;
     actor_target := p; actor_optimizer := actor_optimizer s;
     exploration_strategy := exploration_strategy s; environment := environment s;
     state := state s; next_state := next_state s; action := action s;
     reward := reward s; done := done s;
     global_step_number := global_step_number s;
     episode_number := episode_number s; calls := calls s |}.

Definition set_critic_optimizer (s : Agent) (o : Optimizer (OptState C)) : Agent :=
  {| hyperparameters := hyperparameters s; critic_local := critic_local s;
     critic_target := critic_target s; critic_optimizer := o;
     memory := memory s; actor_local := actor_local s;
     actor_target := actor_target s; actor_optimizer := actor_optimizer s;
     exploration_strategy := exploration_strategy s; environment := environment s;
     state := state s; next_state := next_state s; action := action s;
     reward := reward s; done := done s;
     global_step_number := global_step_number s;
     episode_number := episode_number s; calls := calls s |}.

Definition set_actor_optimizer (s : Agent) (o : Optimizer (OptState C)) : Agent :=
  {| hyperparameters := hyperparameters s; critic_local := critic_local s;
     critic_target := critic_target s; critic_optimizer := critic_optimizer s;
     memory := memory s; actor_local := actor_local s;
     actor_target := actor_target s; actor_optimizer := o;
     exploration_strategy := exploration_strategy s; environment := environment s;
     state := state s; next_state := next_state s; action := action s;
     reward := reward s; done := done s;
     global_step_number := global_step_number s;
     episode_number := episode_number s; calls := calls s |}.

Definition set_memory (s : Agent) (m : Replay_Buffer (Rng C)) : Agent :=
  {| hyperparameters := hyperparameters s; critic_local := critic_local s;
     critic_target := critic_target s; critic_optimizer := critic_optimizer s;
     memory := m; actor_local := actor_local s;
     actor_target := actor_target s; actor_optimizer := actor_optimizer s;
     exploration_strategy := exploration_strategy s; environment := environment s;
     state := state s; next_state := next_state s; action := action s;
     reward := reward s; done := done s;
     global_step_number := global_step_number s;
     episode_number := episode_number s; calls := calls s |}.

Definition set_exploration_strategy (s : Agent) (n : Noise C) : Agent :=
  {| hyperparameters := hyperparameters s; critic_local := critic_local s;
     critic_target := critic_target s; critic_optimizer := critic_optimizer s;
     memory := memory s; actor_local := actor_local s;
     actor_target := actor_target s; actor_optimizer := actor_optimizer s;
     exploration_strategy := n; environment := environment s;
     state := state s; next_state := next_state s; action := action s;
     reward := reward s; done := done s;
     global_step_number := global_step_number s;
     episode_number := episode_number s; calls := calls s |}.

Definition set_action (s : Agent) (a : list Q) : Agent :=
  {| hyperparameters := hyperparameters s; critic_local := critic_local s;
     critic_target := critic_target s; critic_optimizer := critic_optimizer s;
     memory := memory s; actor_local := actor_local s;
     actor_target := actor_target s; actor_optimizer := actor_optimizer s;
     exploration_strategy := exploration_strategy s; environment := environment s;
     state := state s; next_state := next_state s; action := a;
     reward := reward s; done := done s;
     global_step_number := global_step_number s;
     episode_number := episode_number s; calls := calls s |}.

Definition set_outcome (s : Agent) (e : Env C) (ns : list Q) (r : Q) (d : bool) : Agent :=
  {| hyperparameters := hyperparameters s; critic_local := critic_local s;
     critic_target := critic_target s; critic_optimizer := critic_optimizer s;
     memory := memory s; actor_local := actor_local s;
     actor_target := actor_target s; actor_optimizer := actor_optimizer s;
     exploration_strategy := exploration_strategy s; environment := e;
     state := state s; next_state := ns; action := action s;
     reward := r; done := d;
     global_step_number := global_step_number s;
     episode_number := episode_number s; calls := calls s |}.

Definition set_state (s : Agent) (x : list Q) : Agent :=
  {| hyperparameters := hyperparameters s; critic_local := critic_local s;
     critic_target := critic_target s; critic_optimizer := critic_optimizer s;
     memory := memory s; actor_local := actor_local s;
     actor_target := actor_target s; actor_optimizer := actor_optimizer s;
     exploration_strategy := exploration_strategy s; environment := environment s;
     state := x; next_state := next_state s; action := action s;
     reward := reward s; done := done s;
     global_step_number := global_step_number s;
     episode_number := episode_number s; calls := calls s |}.

Definition set_global_step_number (s : Agent) (n : Z) : Agent :=
  {| hyperparameters := hyperparameters s; critic_local := critic_local s;
     critic_target := critic_target s; critic_optimizer := critic_optimizer s;
     memory := memory s; actor_local := actor_local s;
     actor_target := actor_target s; actor_optimizer := actor_optimizer s;
     exploration_strategy := exploration_strategy s; environment := environment s;
     state := state s; next_state := next_state s; action := action s;
     reward := reward s; done := done s;
     global_step_number := n;
     episode_number := episode_number s; calls := calls s |}.

Definition set_episode_number (s : Agent) (n : Z) : Agent :=
  {| hyperparameters := hyperparameters s; critic_local := critic_local s;
     critic_target := critic_target s; critic_optimizer := critic_optimizer s;
     memory := memory s; actor_local := actor_local s;
     actor_target := actor_target s; actor_optimizer := actor_optimizer s;
     exploration_strategy := exploration_strategy s; environment := environment s;
     state := state s; next_state := next_state s; action := action s;
     reward := reward s; done := done s;
     global_step_number := global_step_number s;
     episode_number := n; calls := calls s |}.

Definition record_call (c : Call) (s : Agent) : Agent :=
  {| hyperparameters := hyperparameters s; critic_local := critic_local s;
     critic_target := critic_target s; critic_optimizer := critic_optimizer s;
     memory := memory s; actor_local := actor_local s;
     actor_target := actor_target s; actor_optimizer := actor_optimizer s;
     exploration_strategy := exploration_strategy s; environment := environment s;
     state := state s; next_state := next_state s; action := action s;
     reward := reward s; done := done s;
     global_step_number := global_step_number s;
     episode_number := episode_number s; calls := calls s ++ [c] |}.

(** Network and optimiser objects are passed around by reference. *)
Definition params_of (s : Agent) (m : Model) : Params :=
  match m with
  | CriticLocal => critic_local s
  | CriticTarget => critic_target s
  | ActorLocal => actor_local s
  | ActorTarget => actor_target s
  end.

Definition set_params (s : Agent) (m : Model) (p : Params) : Agent :=
  match m with
  | CriticLocal => set_critic_local s p
  | CriticTarget => set_critic_target s p
  | ActorLocal => set_actor_local s p
  | ActorTarget => set_actor_target s p
  end.

Definition optimizer_of (s : Agent) (o : OptimizerRef) : Optimizer (OptState C) :=
  match o with
  | CriticOptimizer => critic_optimizer s
  | ActorOptimizer => actor_optimizer s
  end.

Definition set_optimizer (s : Agent) (o : OptimizerRef) (x : Optimizer (OptState C)) : Agent :=
  match o with
  | CriticOptimizer => set_critic_optimizer s x
  | ActorOptimizer => set_actor_optimizer s x
  end.

(** The weights an optimiser was built on ([nn.Adam(net.trainable_params(), ...)]
    in the constructor). *)
Definition weights_of (o : OptimizerRef) : Model :=
  match o with
  | CriticOptimizer => CriticLocal
  | ActorOptimizer => ActorLocal
  end.

(** *** The state-and-error monad of the methods *)

Definition M (A : Type) : Type := Agent -> result (A * Agent).

Definition ret {A : Type} (a : A) : M A := fun s => Ok (a, s).

Definition bind {A B : Type} (c : M A) (k : A -> M B) : M B :=
  fun s => match c s with
           | Ok (a, s') => k a s'
           | Raise e => Raise e
           end.

Definition get : M Agent := fun s => Ok (s, s).

Definition modify (f : Agent -> Agent) : M unit := fun s => Ok (tt, f s).

Definition lift {A : Type} (r : result A) : M A :=
  fun s => match r with
           | Ok a => Ok (a, s)
           | Raise e => Raise e
           end.


Local Notation "x <- c ;; k" := (bind c (fun x => k))
  (at level 61, c at next level, right associativity).
Local Notation "c ;;; k" := (bind c (fun _ => k))
  (at level 61, right associativity).

(** *** Services of the base agent and of the replay buffer *)

(** Modelled from the spec: [Replay_Buffer.sample] is not part of the
    sources at hand.  It fails with [InsufficientDataError] when fewer than
    [batch_size] transitions are stored, and otherwise returns a random
    batch of that size as five aligned tensors, leaving the contents as
    they are; the random choice is left to [random_sample]. *)
Definition sample (m : Replay_Buffer (Rng C)) : result (Batch * Replay_Buffer (Rng C)) :=
  if Z.ltb (buffer_len m) (rb_batch_size m) then Raise InsufficientDataError
  else
    let (ts, r) := random_sample C (rng m) (contents m) (Z.to_nat (rb_batch_size m)) in
    Ok (decompose ts,
        {| contents := contents m; capacity := capacity m;
           rb_batch_size := rb_batch_size m; rng := r |}).

(** Modelled from the spec: [Base_Agent.enough_experiences_to_learn_from] is
    not part of the sources at hand; the buffer holds at least [batch_size]
    entries. *)
Definition enough_experiences_to_learn_from (s : Agent) : bool :=
  Z.leb (batch_size (hyperparameters s)) (buffer_len (memory s)).

(** Modelled from the spec: [Base_Agent.conduct_action] is not part of the
    sources at hand; it executes the action in the environment and stores
    the reward, the next state and the done flag. *)
Definition acted (a : list Q) (s : Agent) : Agent :=
  let '(e, (ns, r, d)) := env_step C (environment s) a in
  record_call (CallConductAction a) (set_outcome s e ns r d).

Definition conduct_action (a : list Q) : M unit := modify (acted a).

Definition current_transition (s : Agent) : Transition :=
  {| t_state := state s; t_action := action s; t_reward := reward s;
     t_next_state := next_state s; t_done := done s |}.

(** Modelled from the spec: [Base_Agent.save_experience] is not part of the
    sources at hand; it appends the realised transition to the replay
    buffer, unconditionally. *)
Definition saved (s : Agent) : Agent :=
  record_call (CallSaveExperience (current_transition s))
    (set_memory s (add_experience (memory s) (current_transition s))).

Definition save_experience : M unit := modify saved.

(** Modelled from the spec: [Base_Agent.take_optimisation_step(optimizer,
    grads, clipping_norm)] is not part of the sources at hand; it clips the
    gradient and applies one optimiser step to the weights the optimiser
    was built on.  Both are left to [optimiser_update]. *)
Definition optimisation_step (o : OptimizerRef) (grads : Grads C) (clipping_norm : Q)
    (s : Agent) : Agent :=
  let (o', p') := optimiser_update C (optimizer_of s o) (params_of s (weights_of o))
                                   grads clipping_norm in
  record_call (CallOptimisationStep o)
              (set_params (set_optimizer s o o') (weights_of o) p').

Definition take_optimisation_step (o : OptimizerRef) (grads : Grads C) (clipping_norm : Q) : M unit :=
  modify (optimisation_step o grads clipping_norm).

(** The stateful call of [soft_update_of_target_network(local_model,
    target_model, tau)]: only the target model is written. *)
Definition soft_updated (local_model target_model : Model) (tau : Q) (s : Agent) : Agent :=
  record_call (CallSoftUpdate local_model target_model)
    (set_params s target_model
       (soft_update_of_target_network (params_of s local_model)
                                      (params_of s target_model) tau)).

Definition soft_update (local_model target_model : Model) (tau : Q) : M unit :=
  modify (soft_updated local_model target_model tau).

(** Modelled from the spec: [Base_Agent.update_learning_rate(starting_lr,
    optimizer)] is not part of the sources at hand; per the spec it sets
    the learning rate of the optimiser to the value it is given. *)
Definition with_learning_rate (starting_lr : Q) (o : OptimizerRef) (s : Agent) : Agent :=
  let old := optimizer_of s o in
  record_call (CallUpdateLearningRate starting_lr o)
    (set_optimizer s o {| opt_learning_rate := starting_lr;
                          opt_eps := opt_eps old;
                          opt_state := opt_state old |}).

Definition update_learning_rate (starting_lr : Q) (o : OptimizerRef) : M unit :=
  modify (with_learning_rate starting_lr o).

(** [ms.value_and_grad(fn, grad_position=None, weights=w, has_aux=False)]:
    runs the forward pass (whose errors surface) and returns what the
    backend computed. *)
Definition value_and_grad (fn : Params -> result Q) (w : Params) : result (LossValue C * Grads C) :=
  (let? _ := fn w in Ok (autodiff C fn w))%res.

(** *** DDPG.py *)

Definition sample_experiences : M Batch :=
  fun s => match sample (memory s) with
           | Ok (b, m) => Ok (b, record_call (CallSample b) (set_memory s m))
           | Raise e => Raise e
           end.

(** [pick_action(state=None)].  The two [set_train] calls only toggle the
    mode flag of the network around the forward pass and are not modelled. *)
Definition pick_action : M (list Q) :=
  s <- get ;;
  a <- lift (forward (actor_net C (actor_local s) [state s])) ;;
  let (a', n) := perturb_action C (exploration_strategy s) a in
  modify (fun s => set_exploration_strategy s n) ;;;
  lift (squeeze0 a').

Definition compute_critic_values_for_next_states (s : Agent) (next_states : Matrix) : result Column :=
  (let? actions_next := forward (actor_net C (actor_target s) next_states) in
   let? x := Tensor.cat_axis1 next_states actions_next in
   forward (critic_net C (critic_target s) x))%res.

(** In exact arithmetic; for the float32 values of the source see
    [F32.compute_critic_values_for_current_states]. *)
Definition compute_critic_values_for_current_states (s : Agent)
    (rewards critic_targets_next dones : Column) : result Column :=
  (let? future :=
     Tensor.broadcast Qmult
       (Tensor.scale (discount_rate (hyperparameters s)) critic_targets_next)
       (Tensor.rsub 1 dones) in
   Tensor.broadcast Qplus rewards future)%res.

Definition compute_critic_targets (s : Agent) (next_states : Matrix) (rewards dones : Column)
    : result Column :=
  (let? critic_targets_next := compute_critic_values_for_next_states s next_states in
   compute_critic_values_for_current_states s rewards critic_targets_next dones)%res.

Definition compute_expected_critic_values (s : Agent) (states actions : Matrix) : result Column :=
  (let? x := Tensor.cat_axis1 states actions in
   forward (critic_net C (critic_local s) x))%res.

Definition compute_loss (s : Agent) (states actions : Matrix) (critic_targets : Column) : result Q :=
  (let? critic_expected := compute_expected_critic_values s states actions in
   Tensor.mse_loss critic_expected critic_targets)%res.

Definition calculate_actor_loss (s : Agent) (states : Matrix) : result Q :=
  (let? actions_pred := forward (actor_net C (actor_local s) states) in
   let? x := Tensor.cat_axis1 states actions_pred in
   let? q := forward (critic_net C (critic_local s) x) in
   Ok (- Tensor.mean q))%res.

(** [self.critic_grad_fn]: [compute_loss] differentiated with respect to
    the weights of [critic_local]. *)
Definition critic_grad_fn (s : Agent) (states actions : Matrix) (critic_targets : Column)
    : result (LossValue C * Grads C) :=
  value_and_grad (fun w => compute_loss (set_critic_local s w) states actions critic_targets)
                 (critic_local s).

(** [self.actor_grad_fn]: [calculate_actor_loss] differentiated with
    respect to the weights of [actor_local]. *)
Definition actor_grad_fn (s : Agent) (states : Matrix) : result (LossValue C * Grads C) :=
  value_and_grad (fun w => calculate_actor_loss (set_actor_local s w) states)
                 (actor_local s).

Definition critic_learn (states actions : Matrix) (rewards : Column)
    (next_states : Matrix) (dones : Column) : M unit :=
  s <- get ;;
  critic_targets <- lift (compute_critic_targets s next_states rewards dones) ;;
  vg <- lift (critic_grad_fn s states actions critic_targets) ;;
  modify (record_call (CallCriticGrad states actions critic_targets)) ;;;
  take_optimisation_step CriticOptimizer (snd vg)
    (gradient_clipping_norm (Critic (hyperparameters s))) ;;;
  soft_update CriticLocal CriticTarget (tau (Critic (hyperparameters s))).

Definition actor_learn (states : Matrix) : M unit :=
  s0 <- get ;;
  (if done s0
   then update_learning_rate (learning_rate (Actor (hyperparameters s0))) ActorOptimizer
   else ret tt) ;;;
  s <- get ;;
  vg <- lift (actor_grad_fn s states) ;;
  modify (record_call (CallActorGrad states)) ;;;
  take_optimisation_step ActorOptimizer (snd vg)
    (gradient_clipping_norm (Actor (hyperparameters s))) ;;;
  soft_update ActorLocal ActorTarget (tau (Actor (hyperparameters s))).

Definition time_for_critic_and_actor_to_learn : M bool :=
  s <- get ;;
  if enough_experiences_to_learn_from s
  then r <- lift (py_mod (global_step_number s) (update_every_n_steps (hyperparameters s))) ;;
       ret (Z.eqb r 0)
  else ret false.

(** One pass through the body of the inner [for] loop of [step]. *)
Definition learning_update : M unit :=
  b <- sample_experiences ;;
  critic_learn (states b) (actions b) (rewards b) (next_states b) (dones b) ;;;
  actor_learn (states b).

(** [for _ in range(n): body] *)
Fixpoint for_range (n : nat) (body : M unit) : M unit :=
  match n with
  | O => ret tt
  | S n' => body ;;; for_range n' body
  end.

Definition learning_session : M unit :=
  s <- get ;;
  for_range (Z.to_nat (learning_updates_per_learning_session (hyperparameters s)))
            learning_update.

(** One pass through the body of the [while] loop of [step]. *)
Definition step_iteration : M unit :=
  a <- pick_action ;;
  modify (fun s => set_action s a) ;;;
  conduct_action a ;;;
  t <- time_for_critic_and_actor_to_learn ;;
  (if t then learning_session else ret tt) ;;;
  save_experience ;;;
  modify (fun s => set_state s (next_state s)) ;;;
  modify (fun s => set_global_step_number s (global_step_number s + 1)).

(** [step]: the loop runs until the environment reports [done]; [fuel]
    bounds the number of iterations and [None] means the bound was hit. *)
Fixpoint step (fuel : nat) (s : Agent) : option (result (unit * Agent)) :=
  if done s then Some (Ok (tt, set_episode_number s (episode_number s + 1)))
  else match fuel with
       | O => None
       | S fuel' =>
           match step_iteration s with
           | Ok (_, s') => step fuel' s'
           | Raise e => Some (Raise e)
           end
       end.

(** *** Construction *)

(** What [Base_Agent.__init__(self, config)] leaves on [self] before the
    body of [DDPG.__init__] runs. *)
Record Config : Type := {
  cfg_hyperparameters : Hyperparameters;
  cfg_seed : Z;
  state_size : Z;
  action_size : Z;
  cfg_environment : Env C;
  cfg_state : list Q;
  cfg_init : Init C
}.

(** [nn.Adam(params, learning_rate=lr, eps=1e-4)] *)
Definition Adam (params : Params) (lr : Q) : Optimizer (OptState C) :=
  {| opt_learning_rate := lr; opt_eps := 1 # 10000; opt_state := fresh_opt_state C params |}.

Definition DDPG_init (config : Config) : Agent :=
  let h := cfg_hyperparameters config in
  let (critic_local0, i1) :=
    create_NN C (cfg_init config) (state_size config + action_size config) 1 CriticKey in
  let (critic_target0, i2) :=
    create_NN C i1 (state_size config + action_size config) 1 CriticKey in
  let critic_target1 := copy_model_over critic_local0 critic_target0 in
  let critic_optimizer0 := Adam critic_local0 (learning_rate (Critic h)) in
  let memory0 :=
    new_Replay_Buffer (buffer_size (Critic h)) (batch_size h) (seed_rng C (cfg_seed config)) in
  let (actor_local0, i3) := create_NN C i2 (state_size config) (action_size config) ActorKey in
  let (actor_target0, i4) := create_NN C i3 (state_size config) (action_size config) ActorKey in
  let actor_target1 := copy_model_over actor_local0 actor_target0 in
  let actor_optimizer0 := Adam actor_local0 (learning_rate (Actor h)) in
  {| hyperparameters := h;
     critic_local := critic_local0;
     critic_target := critic_target1;
     critic_optimizer := critic_optimizer0;
     memory := memory0;
     actor_local := actor_local0;
     actor_target := actor_target1;
     actor_optimizer := actor_optimizer0;
     exploration_strategy := new_noise C (cfg_seed config);
     environment := cfg_environment config;
     state := cfg_state config;
     next_state := [];
     action := [];
     reward := 0;
     done := false;
     global_step_number := 0;
     episode_number := 0;
     calls := [] |}.

(** The replay buffer was built with the batch size of the hyperparameters. *)
Definition memory_consistent (s : Agent) : Prop :=
  rb_batch_size (memory s) = batch_size (hyperparameters s).

(** The calls made since the log had length [n]. *)
Definition calls_since (n : nat) (s : Agent) : list Call := skipn n (calls s).

(** What a learning step leaves alone. *)
Record same_frame (s s' : Agent) : Prop := {
  frame_hyperparameters : hyperparameters s' = hyperparameters s;
  frame_done : done s' = done s;
  frame_global_step_number : global_step_number s' = global_step_number s;
  frame_contents : contents (memory s') = contents (memory s);
  frame_batch_size : rb_batch_size (memory s') = rb_batch_size (memory s)
}.

(** The condition under which [step] starts a learning session. *)
Definition time_to_learn (s : Agent) : Prop :=
  (batch_size (hyperparameters s) <= buffer_len (memory s))%Z /\
  (global_step_number s mod update_every_n_steps (hyperparameters s) = 0)%Z.

(** The state in which the actor's gradient is taken: at an episode end the
    learning rate has been written first. *)
Definition before_actor_grad (s : Agent) : Agent :=
  if done s
  then with_learning_rate (learning_rate (Actor (hyperparameters s))) ActorOptimizer s
  else s.

End DDPG.

Arguments hyperparameters {C}.
Arguments critic_local {C}.
Arguments critic_target {C}.
Arguments critic_optimizer {C}.
Arguments memory {C}.
Arguments actor_local {C}.
Arguments actor_target {C}.
Arguments actor_optimizer {C}.
Arguments exploration_strategy {C}.
Arguments environment {C}.
Arguments state {C}.
Arguments next_state {C}.
Arguments action {C}.
Arguments reward {C}.
Arguments done {C}.
Arguments global_step_number {C}.
Arguments episode_number {C}.
Arguments calls {C}.
Arguments cfg_hyperparameters {C}.
Arguments cfg_seed {C}.
Arguments state_size {C}.
Arguments action_size {C}.
Arguments cfg_environment {C}.
Arguments cfg_state {C}.
Arguments cfg_init {C}.
Arguments set_critic_local {C}.
Arguments set_critic_target {C}.
Arguments set_actor_local {C}.
Arguments set_actor_target {C}.
Arguments set_critic_optimizer {C}.
Arguments set_actor_optimizer {C}.
Arguments set_memory {C}.
Arguments set_exploration_strategy {C}.
Arguments set_action {C}.
Arguments set_outcome {C}.
Arguments set_state {C}.
Arguments set_global_step_number {C}.
Arguments set_episode_number {C}.
Arguments record_call {C}.
Arguments params_of {C}.
Arguments set_params {C}.
Arguments optimizer_of {C}.
Arguments set_optimizer {C}.
Arguments ret {C}.
Arguments bind {C}.
Arguments get {C}.
Arguments modify {C}.
Arguments lift {C}.
Arguments sample {C}.
Arguments enough_experiences_to_learn_from {C}.
Arguments conduct_action {C}.
Arguments save_experience {C}.
Arguments take_optimisation_step {C}.
Arguments soft_update {C}.
Arguments update_learning_rate {C}.
Arguments value_and_grad {C}.
Arguments sample_experiences {C}.
Arguments pick_action {C}.
Arguments compute_critic_values_for_next_states {C}.
Arguments compute_critic_values_for_current_states {C}.
Arguments compute_critic_targets {C}.
Arguments compute_expected_critic_values {C}.
Arguments compute_loss {C}.
Arguments calculate_actor_loss {C}.
Arguments critic_grad_fn {C}.
Arguments actor_grad_fn {C}.
Arguments critic_learn {C}.
Arguments actor_learn {C}.
Arguments time_for_critic_and_actor_to_learn {C}.
Arguments learning_update {C}.
Arguments for_range {C}.
Arguments learning_session {C}.
Arguments step_iteration {C}.
Arguments step {C}.
Arguments Adam {C}.
Arguments DDPG_init {C}.
Arguments memory_consistent {C}.
Arguments calls_since {C}.
Arguments time_to_learn {C}.
Arguments before_actor_grad {C}.
Arguments same_frame {C}.
Arguments saved {C}.
Arguments current_transition {C}.
Arguments acted {C}.
Arguments with_learning_rate {C}.
Arguments soft_updated {C}.
Arguments optimisation_step {C}.

(** ** A small concrete instance

    Linear networks, a backend that differentiates by forward differences
    and reports a value beyond the float32 range as non-finite, an
    optimiser that does plain gradient descent and leaves the weights alone
    when a gradient entry is non-finite, and a three-step environment.
    The instance is used to run the model on concrete inputs. *)

Module Demo.

Inductive F32 : Type :=
| Finite (q : Q)
| NonFinite.

Definition f32_max : Q := inject_Z (2 ^ 128).

Definition to_f32 (q : Q) : F32 :=
  if Qle_bool (Qabs q) f32_max then Finite q else NonFinite.

Definition is_finite (x : F32) : bool :=
  match x with Finite _ => true | NonFinite => false end.

Definition all_finite (g : list F32) : bool := forallb is_finite g.

Definition dot (w x : list Q) : Q := Tensor.sum (Tensor.zip_with Qmult w x).

Definition linear_actor (w : Params) (x : Matrix) : option Matrix :=
  Some (map (fun r => [dot w r]) x).

Definition linear_critic (w : Params) (x : Matrix) : option Column :=
  Some (map (dot w) x).

Definition value_at (fn : Params -> result Q) (w : Params) : Q :=
  match fn w with Ok v => v | Raise _ => 0 end.

(** All the ways of adding 1 to one coordinate of [post], behind [pre]. *)
Fixpoint bumps (pre post : Params) : list Params :=
  match post with
  | [] => []
  | x :: post' => (pre ++ (x + 1) :: post') :: bumps (pre ++ [x]) post'
  end.

Definition forward_differences (fn : Params -> result Q) (w : Params) : F32 * list F32 :=
  (to_f32 (value_at fn w),
   map (fun w' => to_f32 (Qred (value_at fn w' - value_at fn w))) (bumps [] w)).

Fixpoint descend (lr : Q) (w : Params) (g : list F32) : Params :=
  match w, g with
  | x :: w', Finite d :: g' => Qred (x - lr * d) :: descend lr w' g'
  | _, _ => w
  end.

Definition guarded_descent (o : Optimizer unit) (w : Params) (g : list F32) (clip : Q)
    : Optimizer unit * Params :=
  if all_finite g then (o, descend (opt_learning_rate o) w g) else (o, w).

Definition countdown (e : nat) (a : list Q) : nat * (list Q * Q * bool) :=
  (S e, ([inject_Z (Z.of_nat (S e))], 1, Nat.leb 3 (S e))).

Definition first_k (r : nat) (ts : list Transition) (k : nat) : list Transition * nat :=
  (firstn k ts, S r).

Definition constant_init (i : nat) (input_dim output_dim : Z) (k : Key) : Params * nat :=
  (repeat (inject_Z (Z.of_nat i)) (Z.to_nat (input_dim * output_dim)), S i).

Definition backend : Collaborators :=
  {| Grads := list F32;
     LossValue := F32;
     OptState := unit;
     Env := nat;
     Noise := unit;
     Rng := nat;
     Init := nat;
     actor_net := linear_actor;
     critic_net := linear_critic;
     autodiff := forward_differences;
     optimiser_update := guarded_descent;
     fresh_opt_state := fun _ => tt;
     env_step := countdown;
     perturb_action := fun n a => (a, n);
     new_noise := fun _ => tt;
     random_sample := first_k;
     seed_rng := fun z => Z.to_nat z;
     create_NN := constant_init |}.

Definition hyper : Hyperparameters :=
  {| Actor := {| learning_rate := 1 # 10; gradient_clipping_norm := 5; tau := 1 # 2;
                 buffer_size := 5 |};
     Critic := {| learning_rate := 1 # 10; gradient_clipping_norm := 5; tau := 1 # 2;
                  buffer_size := 5 |};
     batch_size := 2;
     discount_rate := 9 # 10;
     update_every_n_steps := 1;
     learning_updates_per_learning_session := 2 |}.

Definition config : Config backend :=
  Build_Config backend hyper 0 1 1 0%nat [0] 1%nat.

Definition transition (r : Q) (d : bool) : Transition :=
  {| t_state := [r]; t_action := [1]; t_reward := r; t_next_state := [r + 1]; t_done := d |}.

(** A freshly built agent whose buffer already holds five transitions with
    rewards 1..5, the last one terminal. *)
Definition agent0 : Agent backend :=
  let s := DDPG_init config in
  set_memory s
    (fold_left add_experience
       [transition 1 false; transition 2 false; transition 3 false;
        transition 4 false; transition 5 true]
       (memory s)).

(** [agent0] after the environment has reported the end of the episode. *)
Definition ended_agent : Agent backend := set_outcome agent0 3%nat [3] 1 true.

(** An agent whose critic weights are of the order of 10^20: the squared
    error of the batch below exceeds the float32 range while its forward
    differences do not. *)
Definition large_agent : Agent backend :=
  set_critic_local (DDPG_init config) [inject_Z (10 ^ 20); 0].

Definition after_update : Agent backend :=
  Eval vm_compute in
    match learning_update agent0 with Ok (_, s) => s | Raise _ => agent0 end.

Definition after_iteration : Agent backend :=
  Eval vm_compute in
    match step_iteration agent0 with Ok (_, s) => s | Raise _ => agent0 end.

Definition after_actor_learn : Agent backend :=
  Eval vm_compute in
    match actor_learn [[1]; [2]] ended_agent with Ok (_, s) => s | Raise _ => ended_agent end.

Definition after_large_batch : Agent backend :=
  Eval vm_compute in
    match critic_learn [[1]] [[0]] [0] [[0]] [1] large_agent with
    | Ok (_, s) => s
    | Raise _ => large_agent
    end.

End Demo.

(** ** The critic targets in float32 arithmetic

    [compute_critic_targets] and the two functions it calls once more, on
    IEEE 754 binary32 values (24 bits of precision, infinities at exponent
    128) with round-to-nearest-even: what the float32 tensors of the
    source hold.  The Python floats [1.0] and [discount_rate] meet a
    float32 tensor and are taken at float32 precision. *)

Module F32.

Definition float32 : Type := SpecFloat.spec_float.

Definition prec : Z := 24.
Definition emax : Z := 128.

Definition add (x y : float32) : float32 := SpecFloat.SFadd prec emax x y.
Definition sub (x y : float32) : float32 := SpecFloat.SFsub prec emax x y.
Definition mul (x y : float32) : float32 := SpecFloat.SFmul prec emax x y.

(** IEEE equality: false on not-a-number, true on zeros of either sign. *)
Definition eqb (x y : float32) : bool := SpecFloat.SFeqb x y.

Definition nan : float32 := SpecFloat.S754_nan.
Definition infinity : float32 := SpecFloat.S754_infinity false.

(** 1.0 *)
Definition one : float32 := SpecFloat.S754_finite false 8388608 (-23).

Definition is_finite (x : float32) : bool :=
  match x with
  | SpecFloat.S754_zero _ | SpecFloat.S754_finite _ _ _ => true
  | SpecFloat.S754_infinity _ | SpecFloat.S754_nan => false
  end.

Definition is_nan (x : float32) : bool :=
  match x with SpecFloat.S754_nan => true | _ => false end.

Definition is_zero (x : float32) : bool :=
  match x with SpecFloat.S754_zero _ => true | _ => false end.

Definition Column32 : Type := list float32.
Definition Matrix32 : Type := list (list float32).

Fixpoint zip_with (f : float32 -> float32 -> float32) (xs ys : Column32) : Column32 :=
  match xs, ys with
  | x :: xs', y :: ys' => f x y :: zip_with f xs' ys'
  | _, _ => []
  end.

(** Elementwise binary operator with the broadcasting of the first axis. *)
Definition broadcast (f : float32 -> float32 -> float32) (xs ys : Column32) : result Column32 :=
  if Nat.eqb (length xs) (length ys) then Ok (zip_with f xs ys)
  else match xs, ys with
       | [x], _ => Ok (map (fun y => f x y) ys)
       | _, [y] => Ok (map (fun x => f x y) xs)
       | _, _ => Raise ShapeMismatchError
       end.

Definition scale (c : float32) (t : Column32) : Column32 := map (mul c) t.

Definition rsub (c : float32) (t : Column32) : Column32 := map (fun x => sub c x) t.

Fixpoint cat_rows (a b : Matrix32) : Matrix32 :=
  match a, b with
  | r :: a', s :: b' => (r ++ s) :: cat_rows a' b'
  | _, _ => []
  end.

Definition cat_axis1 (a b : Matrix32) : result Matrix32 :=
  if Nat.eqb (length a) (length b) then Ok (cat_rows a b)
  else Raise ShapeMismatchError.

Section Targets.

(** The forward passes of [self.actor_target] and [self.critic_target], and
    [self.hyperparameters["discount_rate"]]. *)
Variable actor_target : Matrix32 -> option Matrix32.
Variable critic_target : Matrix32 -> option Column32.
Variable discount_rate : float32.

Definition compute_critic_values_for_next_states (next_states : Matrix32) : result Column32 :=
  (let? actions_next := forward (actor_target next_states) in
   let? x := cat_axis1 next_states actions_next in
   forward (critic_target x))%res.

Definition compute_critic_values_for_current_states
    (rewards critic_targets_next dones : Column32) : result Column32 :=
  (let? future :=
     broadcast mul (scale discount_rate critic_targets_next) (rsub one dones) in
   broadcast add rewards future)%res.

Definition compute_critic_targets (next_states : Matrix32) (rewards dones : Column32)
    : result Column32 :=
  (let? critic_targets_next := compute_critic_values_for_next_states next_states in
   compute_critic_values_for_current_states rewards critic_targets_next dones)%res.

End Targets.

(** Some float32 values and two constant networks to run the functions on. *)

(** 0.9 at float32 precision *)
Definition nine_tenths : float32 := SpecFloat.S754_finite false 15099494 (-24).

(** 2.0 and 5.0 *)
Definition two : float32 := SpecFloat.S754_finite false 8388608 (-22).
Definition five : float32 := SpecFloat.S754_finite false 10485760 (-21).

Definition constant_actor (m : Matrix32) : option Matrix32 :=
  Some (map (fun _ => [one]) m).

Definition constant_critic (v : float32) (m : Matrix32) : option Column32 :=
  Some (map (fun _ => v) m).

End F32.

(** ** Further vocabulary for the control loop *)

Definition is_conduct_action (c : Call) : bool :=
  match c with CallConductAction _ => true | _ => false end.

Definition is_save_experience (c : Call) : bool :=
  match c with CallSaveExperience _ => true | _ => false end.

Definition is_update_learning_rate (c : Call) : bool :=
  match c with CallUpdateLearningRate _ _ => true | _ => false end.

Section Frames.

Variable C : Collaborators.

(** The six objects that learning writes: four networks, two optimisers. *)
Record same_networks (s s' : Agent C) : Prop := {
  keep_critic_local : critic_local s' = critic_local s;
  keep_critic_target : critic_target s' = critic_target s;
  keep_critic_optimizer : critic_optimizer s' = critic_optimizer s;
  keep_actor_local : actor_local s' = actor_local s;
  keep_actor_target : actor_target s' = actor_target s;
  keep_actor_optimizer : actor_optimizer s' = actor_optimizer s
}.

(** The episode state that the control loop itself advances, and the
    capacity of the buffer. *)
Record same_episode (s s' : Agent C) : Prop := {
  keep_state : state s' = state s;
  keep_next_state : next_state s' = next_state s;
  keep_action : action s' = action s;
  keep_reward : reward s' = reward s;
  keep_episode_number : episode_number s' = episode_number s;
  keep_environment : environment s' = environment s;
  keep_exploration_strategy : exploration_strategy s' = exploration_strategy s;
  keep_capacity : capacity (memory s') = capacity (memory s)
}.

(** The state in which [step] asks whether it is time to learn: the action
    [a] has been picked (leaving the noise process in [n]), stored in
    [self.action] and conducted. *)
Definition arrived (a : list Q) (n : Noise C) (s : Agent C) : Agent C :=
  acted a (set_action (set_exploration_strategy s n) a).

(** The last two statements of the loop body of [step]. *)
Definition advanced (s : Agent C) : Agent C :=
  set_global_step_number (set_state s (next_state s)) (global_step_number s + 1).

End Frames.

Arguments same_networks {C}.
Arguments same_episode {C}.
Arguments arrived {C}.
Arguments advanced {C}.

Section Sessions.

Variable C : Collaborators.

(** The calls of a learning session of [n] passes that starts with the
    replay buffer [m] and leaves it as [m']: the batch of each pass is what
    [sample] returns on the buffer as the pass before left it. *)
Inductive sampled_session (h : Hyperparameters) (d : bool)
  : Replay_Buffer (Rng C) -> nat -> list Call -> Replay_Buffer (Rng C) -> Prop :=
| sampled_none (m : Replay_Buffer (Rng C)) : sampled_session h d m O [] m
| sampled_pass (m m1 m2 : Replay_Buffer (Rng C)) (n : nat) (b : Batch) (y : Column)
               (rest : list Call) :
    sample m = Ok (b, m1) ->
    sampled_session h d m1 n rest m2 ->
    sampled_session h d m (S n) (update_calls h d b y ++ rest) m2.

(** *** The agent as a failing call leaves it

    An exception does not undo what a method has written before raising.
    [M] forgets the agent when a call raises; [ML] keeps it. *)

Definition ML (A : Type) : Type := Agent C -> result A * Agent C.

Definition bind_leaving {A B : Type} (c : ML A) (k : A -> ML B) : ML B :=
  fun s => match c s with
           | (Ok a, s') => k a s'
           | (Raise e, s') => (Raise e, s')
           end.

Definition get_leaving : ML (Agent C) := fun s => (Ok s, s).

Definition lift_leaving {A : Type} (r : result A) : ML A := fun s => (r, s).

Definition modify_leaving (f : Agent C -> Agent C) : ML unit := fun s => (Ok tt, f s).

(** [critic_learn], statement by statement as in DDPG.py, in [ML]. *)
Definition critic_learn_leaving (states actions : Matrix) (rewards : Column)
    (next_states : Matrix) (dones : Column) : ML unit :=
  bind_leaving get_leaving (fun s =>
  bind_leaving (lift_leaving (compute_critic_targets s next_states rewards dones))
    (fun critic_targets =>
  bind_leaving (lift_leaving (critic_grad_fn s states actions critic_targets)) (fun vg =>
  bind_leaving (modify_leaving (record_call (CallCriticGrad states actions critic_targets)))
    (fun _ =>
  bind_leaving (modify_leaving
                  (optimisation_step CriticOptimizer (snd vg)
                     (gradient_clipping_norm (Critic (hyperparameters s))))) (fun _ =>
  modify_leaving (soft_updated CriticLocal CriticTarget (tau (Critic (hyperparameters s))))))))).

End Sessions.

Arguments sampled_session {C}.
Arguments critic_learn_leaving {C}.

(** Runs of the concrete instance of [Demo] used further below. *)
Module DemoRuns.

Definition fresh_agent : Agent Demo.backend := DDPG_init Demo.config.

Definition after_fresh_iteration : Agent Demo.backend :=
  Eval vm_compute in
    match step_iteration fresh_agent with Ok (_, s) => s | Raise _ => fresh_agent end.

Definition after_episode : Agent Demo.backend :=
  Eval vm_compute in
    match step 10 fresh_agent with Some (Ok (_, s)) => s | _ => fresh_agent end.

Definition after_critic : Agent Demo.backend :=
  Eval vm_compute in
    match critic_learn [[1]; [2]] [[1]; [1]] [1; 2] [[2]; [3]] [0; 0] Demo.agent0 with
    | Ok (_, s) => s
    | Raise _ => Demo.agent0
    end.

Definition targets0 : Column :=
  Eval vm_compute in
    match compute_critic_targets Demo.agent0 [[2]; [3]] [1; 2] [0; 0] with
    | Ok y => y
    | Raise _ => []
    end.

(** The same instance with a batch size that a three-step episode does not
    reach. *)
Definition patient_config : Config Demo.backend :=
  Build_Config Demo.backend
    {| Actor := Actor Demo.hyper; Critic := Critic Demo.hyper; batch_size := 5;
       discount_rate := discount_rate Demo.hyper;
       update_every_n_steps := update_every_n_steps Demo.hyper;
       learning_updates_per_learning_session :=
         learning_updates_per_learning_session Demo.hyper |}
    0 1 1 0%nat [0] 1%nat.

Definition patient_agent : Agent Demo.backend := DDPG_init patient_config.

Definition after_patient_episode : Agent Demo.backend :=
  Eval vm_compute in
    match step 3 patient_agent with Some (Ok (_, s)) => s | _ => patient_agent end.

End DemoRuns.

(** * Facts *)

(** ** Tensors *)

Module TensorFacts.
Import Tensor.

(** A sum grows strictly when every entry does and there is at least one. *)
Lemma sum_lt (xs ys : Column) :
  Forall2 Qlt xs ys -> xs <> [] -> sum xs < sum ys.
Proof.
  induction 1 as [|x y xs ys Hxy Hrest IH]; intros Hne; [congruence|].
  simpl. destruct xs as [|x' xs].
  - inversion Hrest; subst; simpl. lra.
  - assert (sum (x' :: xs) < sum ys) by (apply IH; discriminate).
    lra.
Qed.

Lemma mean_lt (xs ys : Column) :
  Forall2 Qlt xs ys -> xs <> [] -> mean xs < mean ys.
Proof.
  intros H Hne. unfold mean.
  rewrite <- (Forall2_length H).
  assert (Hpos : 0 < inject_Z (Z.of_nat (length xs))).
  { destruct xs as [|x xs]; [congruence|].
    change 0 with (inject_Z 0). rewrite <- Zlt_Qlt. simpl length. lia. }
  pose proof (@sum_lt xs ys H Hne) as Hs; fold (sum xs) (sum ys) in Hs.
  unfold Qdiv. apply Qmult_lt_compat_r; [|exact Hs].
  apply Qinv_lt_0_compat; exact Hpos.
Qed.

End TensorFacts.

(** ** Soft updates *)

Lemma length_map_onto (f : Q -> Q -> Q) (src tgt : Params) :
  length (map_onto f src tgt) = length tgt.
Proof.
  revert src; induction tgt as [|t tgt IH]; intros [|l src]; simpl; auto.
Qed.

Lemma nth_map_onto (f : Q -> Q -> Q) (src tgt : Params) (i : nat) :
  (i < length src)%nat -> (i < length tgt)%nat ->
  nth i (map_onto f src tgt) 0 = f (nth i src 0) (nth i tgt 0).
Proof.
  revert src i; induction tgt as [|t tgt IH]; intros [|l src] i Hs Ht; simpl in *; try lia.
  destruct i as [|i]; [reflexivity|].
  apply IH; lia.
Qed.

Lemma map_onto_copy (src tgt : Params) :
  length src = length tgt -> map_onto (fun l _ => l) src tgt = src.
Proof.
  revert src; induction tgt as [|t tgt IH]; intros [|l src] H; simpl in *;
    try congruence.
  f_equal; apply IH; congruence.
Qed.

Lemma length_soft_updates (k : nat) (local target : Params) (tau : Q) :
  length (soft_updates k local target tau) = length target.
Proof.
  induction k as [|k IH]; simpl; [reflexivity|].
  unfold soft_update_of_target_network; rewrite length_map_onto; exact IH.
Qed.

Lemma soft_update_distance (tau l t : Q) :
  tau <= 1 ->
  Qabs (tau * l + (1 - tau) * t - l) == (1 - tau) * Qabs (t - l).
Proof.
  intros Htau.
  assert (E : tau * l + (1 - tau) * t - l == (1 - tau) * (t - l)) by ring.
  rewrite E, Qabs_Qmult.
  rewrite (Qabs_pos (1 - tau)) by lra.
  reflexivity.
Qed.

(** C5: one soft update replaces every target parameter by
    tau * local + (1 - tau) * target; with tau in (0,1] and fixed local
    parameters, each further soft update multiplies the distance of a
    target parameter to its local counterpart by (1 - tau), so the
    distance never grows. *)
Theorem soft_update_contracts_towards_local :
  forall (tau : Q) (local target : Params),
    0 < tau -> tau <= 1 -> length local = length target ->
    length (soft_update_of_target_network local target tau) = length target /\
    (forall i, (i < length target)%nat ->
       nth i (soft_update_of_target_network local target tau) 0
       = tau * nth i local 0 + (1 - tau) * nth i target 0) /\
    (forall k i, (i < length target)%nat ->
       Qabs (nth i (soft_updates (S k) local target tau) 0 - nth i local 0)
       == (1 - tau) * Qabs (nth i (soft_updates k local target tau) 0 - nth i local 0) /\
       Qabs (nth i (soft_updates (S k) local target tau) 0 - nth i local 0)
       <= Qabs (nth i (soft_updates k local target tau) 0 - nth i local 0)).
Proof.
  intros tau local target Hpos Hle Hlen.
  split; [apply length_map_onto|].
  split.
  - intros i Hi. unfold soft_update_of_target_network.
    apply nth_map_onto; [rewrite Hlen|]; exact Hi.
  - intros k i Hi.
    assert (Hstep :
      Qabs (nth i (soft_updates (S k) local target tau) 0 - nth i local 0)
      == (1 - tau) * Qabs (nth i (soft_updates k local target tau) 0 - nth i local 0)).
    { simpl soft_updates. unfold soft_update_of_target_network at 1.
      rewrite nth_map_onto.
      - apply soft_update_distance; exact Hle.
      - rewrite Hlen; exact Hi.
      - rewrite length_soft_updates; exact Hi. }
    split; [exact Hstep|].
    rewrite Hstep.
    pose proof (Qabs_nonneg (nth i (soft_updates k local target tau) 0 - nth i local 0)) as Hn.
    nra.
Qed.

(** The theorem at tau = 1/2, local = [4; 0] and target = [0; 8]. *)
Lemma soft_update_contracts_towards_local_witness :
  length (soft_update_of_target_network [4; 0] [0; 8] (1 # 2)) = 2%nat /\
  nth 0 (soft_update_of_target_network [4; 0] [0; 8] (1 # 2)) 0
  = (1 # 2) * 4 + (1 - (1 # 2)) * 0.
Proof.
  destruct (@soft_update_contracts_towards_local (1 # 2) [4; 0] [0; 8]) as (H1 & H2 & _).
  - reflexivity.
  - discriminate.
  - reflexivity.
  - split; [exact H1 | apply (H2 0%nat); simpl; lia].
Defined.

(** ** Critic targets and actor loss *)

Section Losses.

Variable C : Collaborators.
Implicit Types s : Agent C.

(** C4: the actor loss is minus the mean of the local critic's values of
    the states joined with the local actor's actions; with the same critic,
    an actor whose actions the critic values strictly higher on every
    state of a non-empty batch has the strictly lower loss. *)
Theorem actor_loss_formula_and_sign :
  forall (sA sB : Agent C) (states aA aB xA xB : Matrix) (qA qB : Column),
    critic_local sA = critic_local sB ->
    actor_net C (actor_local sA) states = Some aA ->
    Tensor.cat_axis1 states aA = Ok xA ->
    critic_net C (critic_local sA) xA = Some qA ->
    actor_net C (actor_local sB) states = Some aB ->
    Tensor.cat_axis1 states aB = Ok xB ->
    critic_net C (critic_local sB) xB = Some qB ->
    qB <> [] ->
    Forall2 Qlt qB qA ->
    calculate_actor_loss sA states = Ok (- Tensor.mean qA) /\
    calculate_actor_loss sB states = Ok (- Tensor.mean qB) /\
    - Tensor.mean qA < - Tensor.mean qB.
Proof.
  intros sA sB states aA aB xA xB qA qB _ HaA HxA HqA HaB HxB HqB Hne Hlt.
  unfold calculate_actor_loss.
  rewrite HaA, HaB; cbn [rbind forward]. rewrite HxA, HxB; cbn [rbind].
  rewrite HqA, HqB; cbn [rbind forward].
  split; [reflexivity|]. split; [reflexivity|].
  pose proof (@TensorFacts.mean_lt qB qA Hlt Hne). lra.
Qed.

End Losses.

(** ** The learning step and the control loop *)

Section Control.

Variable C : Collaborators.
Implicit Types s : Agent C.

Local Notation "x <- c ;; k" := (bind c (fun x => k))
  (at level 61, c at next level, right associativity).
Local Notation "c ;;; k" := (bind c (fun _ => k))
  (at level 61, right associativity).

Lemma same_frame_trans s1 s2 s3 : same_frame s1 s2 -> same_frame s2 s3 -> same_frame s1 s3.
Proof. intros [] []; split; congruence. Qed.

(** *** What a critic learning step does *)

Lemma critic_learn_inv (st ac : Matrix) (r : Column) (ns : Matrix) (d : Column) s s' u :
  critic_learn st ac r ns d s = Ok (u, s') ->
  exists y vg,
    compute_critic_targets s ns r d = Ok y /\
    critic_grad_fn s st ac y = Ok vg /\
    s' = soft_updated CriticLocal CriticTarget (tau (Critic (hyperparameters s)))
           (optimisation_step CriticOptimizer (snd vg)
              (gradient_clipping_norm (Critic (hyperparameters s)))
              (record_call (CallCriticGrad st ac y) s)).
Proof.
  unfold critic_learn, take_optimisation_step, soft_update, bind, get, lift, modify.
  destruct (compute_critic_targets s ns r d) as [y|e] eqn:Hy; [|discriminate].
  destruct (critic_grad_fn s st ac y) as [vg|e] eqn:Hvg; [|discriminate].
  intros H; inversion H; subst.
  exists y, vg. split; [reflexivity|]. split; [exact Hvg | reflexivity].
Qed.

Lemma actor_learn_inv (st : Matrix) s s' u :
  actor_learn st s = Ok (u, s') ->
  exists vg,
    actor_grad_fn (before_actor_grad s) st = Ok vg /\
    s' = soft_updated ActorLocal ActorTarget (tau (Actor (hyperparameters s)))
           (optimisation_step ActorOptimizer (snd vg)
              (gradient_clipping_norm (Actor (hyperparameters s)))
              (record_call (CallActorGrad st) (before_actor_grad s))).
Proof.
  unfold actor_learn, before_actor_grad, take_optimisation_step, soft_update,
    update_learning_rate, bind, get, lift, modify, ret.
  destruct (done s).
  - destruct (actor_grad_fn _ st) as [vg|e] eqn:Hvg; [|discriminate].
    intros H; inversion H; subst.
    exists vg; split; [first [exact Hvg | reflexivity]|]. reflexivity.
  - destruct (actor_grad_fn _ st) as [vg|e] eqn:Hvg; [|discriminate].
    intros H; inversion H; subst.
    exists vg; split; [first [exact Hvg | reflexivity]|]. reflexivity.
Qed.

Lemma critic_learn_effect (st ac : Matrix) (r : Column) (ns : Matrix) (d : Column) s s' u :
  critic_learn st ac r ns d s = Ok (u, s') ->
  exists y vg,
    compute_critic_targets s ns r d = Ok y /\
    critic_grad_fn s st ac y = Ok vg /\
    calls s' = calls s ++ [CallCriticGrad st ac y; CallOptimisationStep CriticOptimizer;
                           CallSoftUpdate CriticLocal CriticTarget] /\
    same_frame s s' /\
    (critic_optimizer s', critic_local s')
    = optimiser_update C (critic_optimizer s) (critic_local s) (snd vg)
        (gradient_clipping_norm (Critic (hyperparameters s))) /\
    critic_target s'
    = soft_update_of_target_network (critic_local s') (critic_target s)
        (tau (Critic (hyperparameters s))) /\
    actor_local s' = actor_local s /\
    actor_target s' = actor_target s /\
    actor_optimizer s' = actor_optimizer s.
Proof.
  intros H. apply critic_learn_inv in H. destruct H as (y & vg & Hy & Hvg & ->).
  exists y, vg. split; [exact Hy|]. split; [exact Hvg|].
  unfold soft_updated, optimisation_step; cbn.
  destruct (optimiser_update C (critic_optimizer s) (critic_local s) (snd vg)
              (gradient_clipping_norm (Critic (hyperparameters s)))) as [o' p']; cbn.
  rewrite <- !app_assoc; cbn.
  repeat split; reflexivity.
Qed.

Lemma actor_learn_effect (st : Matrix) s s' u :
  actor_learn st s = Ok (u, s') ->
  exists vg,
    actor_grad_fn (before_actor_grad s) st = Ok vg /\
    calls s' = calls s
               ++ (if done s
                   then [CallUpdateLearningRate (learning_rate (Actor (hyperparameters s)))
                                                ActorOptimizer]
                   else [])
               ++ [CallActorGrad st; CallOptimisationStep ActorOptimizer;
                   CallSoftUpdate ActorLocal ActorTarget] /\
    same_frame s s' /\
    (actor_optimizer s', actor_local s')
    = optimiser_update C (actor_optimizer (before_actor_grad s)) (actor_local s) (snd vg)
        (gradient_clipping_norm (Actor (hyperparameters s))) /\
    actor_target s'
    = soft_update_of_target_network (actor_local s') (actor_target s)
        (tau (Actor (hyperparameters s))) /\
    critic_local s' = critic_local s /\
    critic_target s' = critic_target s /\
    critic_optimizer s' = critic_optimizer s.
Proof.
  intros H. apply actor_learn_inv in H. destruct H as (vg & Hvg & ->).
  exists vg. split; [exact Hvg|].
  unfold soft_updated, optimisation_step, before_actor_grad, with_learning_rate in *.
  destruct (done s) eqn:Hdone; cbn.
  - match goal with
    | |- context [optimiser_update ?c ?o ?p ?g ?n] =>
        destruct (optimiser_update c o p g n) as [o' p']
    end; cbn.
    rewrite <- !app_assoc; cbn.
    repeat split; try reflexivity; cbn; auto.
  - match goal with
    | |- context [optimiser_update ?c ?o ?p ?g ?n] =>
        destruct (optimiser_update c o p g n) as [o' p']
    end; cbn.
    rewrite <- !app_assoc; cbn.
    repeat split; try reflexivity; cbn; auto.
Qed.

(** *** Sampling *)

Lemma sample_inv (m m' : Replay_Buffer (Rng C)) (b : Batch) :
  sample m = Ok (b, m') ->
  (rb_batch_size m <= buffer_len m)%Z /\
  contents m' = contents m /\
  rb_batch_size m' = rb_batch_size m.
Proof.
  unfold sample.
  destruct (Z.ltb (buffer_len m) (rb_batch_size m)) eqn:Hlt; [discriminate|].
  destruct (random_sample C (rng m) (contents m) (Z.to_nat (rb_batch_size m))) as [ts r].
  intros H; inversion H; subst; cbn.
  apply Z.ltb_ge in Hlt. auto.
Qed.

Lemma sample_enough (m : Replay_Buffer (Rng C)) :
  (rb_batch_size m <= buffer_len m)%Z -> sample m <> Raise InsufficientDataError.
Proof.
  intros Hle. unfold sample.
  destruct (Z.ltb (buffer_len m) (rb_batch_size m)) eqn:Hlt.
  - apply Z.ltb_lt in Hlt. lia.
  - destruct (random_sample C (rng m) (contents m) (Z.to_nat (rb_batch_size m))).
    discriminate.
Qed.

Lemma sample_experiences_inv s s' (b : Batch) :
  sample_experiences s = Ok (b, s') ->
  exists m, sample (memory s) = Ok (b, m) /\
            s' = record_call (CallSample b) (set_memory s m).
Proof.
  unfold sample_experiences.
  destruct (sample (memory s)) as [[b0 m]|e]; [|discriminate].
  intros H; inversion H; subst. exists m; split; reflexivity.
Qed.

(** *** One learning update: sample, critic, actor *)

(** The critic targets read the two target networks and the discount rate,
    nothing else of the agent. *)
Lemma critic_targets_read s1 s2 (ns : Matrix) (r d : Column) :
  actor_target s1 = actor_target s2 ->
  critic_target s1 = critic_target s2 ->
  hyperparameters s1 = hyperparameters s2 ->
  compute_critic_targets s1 ns r d = compute_critic_targets s2 ns r d.
Proof.
  intros Ha Hc Hh.
  unfold compute_critic_targets, compute_critic_values_for_next_states,
    compute_critic_values_for_current_states.
  rewrite Ha, Hc, Hh. reflexivity.
Qed.

Lemma actor_optimizer_before_actor_grad s :
  actor_optimizer (before_actor_grad s)
  = if done s
    then {| opt_learning_rate := learning_rate (Actor (hyperparameters s));
            opt_eps := opt_eps (actor_optimizer s);
            opt_state := opt_state (actor_optimizer s) |}
    else actor_optimizer s.
Proof. unfold before_actor_grad. destruct (done s); reflexivity. Qed.

Lemma learning_update_effect s s' u :
  learning_update s = Ok (u, s') ->
  exists b m y (vgc vga : LossValue C * Grads C),
    sample (memory s) = Ok (b, m) /\
    compute_critic_targets s (next_states b) (rewards b) (dones b) = Ok y /\
    calls s' = calls s ++ update_calls (hyperparameters s) (done s) b y /\
    same_frame s s' /\
    (critic_optimizer s', critic_local s')
    = optimiser_update C (critic_optimizer s) (critic_local s) (snd vgc)
        (gradient_clipping_norm (Critic (hyperparameters s))) /\
    critic_target s'
    = soft_update_of_target_network (critic_local s') (critic_target s)
        (tau (Critic (hyperparameters s))) /\
    (actor_optimizer s', actor_local s')
    = optimiser_update C
        (if done s
         then {| opt_learning_rate := learning_rate (Actor (hyperparameters s));
                 opt_eps := opt_eps (actor_optimizer s);
                 opt_state := opt_state (actor_optimizer s) |}
         else actor_optimizer s)
        (actor_local s) (snd vga)
        (gradient_clipping_norm (Actor (hyperparameters s))) /\
    actor_target s'
    = soft_update_of_target_network (actor_local s') (actor_target s)
        (tau (Actor (hyperparameters s))).
Proof.
  unfold learning_update, bind.
  destruct (sample_experiences s) as [[b s1]|e] eqn:Hs; [|discriminate].
  destruct (critic_learn _ _ _ _ _ s1) as [[u1 s2]|e] eqn:Hc; [|discriminate].
  intros Ha.
  apply sample_experiences_inv in Hs. destruct Hs as (m & Hm & ->).
  apply critic_learn_effect in Hc.
  destruct Hc as (y & vgc & Hy & _ & Hcalls2 & F2 & Hopt2 & Htgt2 & Hal2 & Hat2 & Hao2).
  apply actor_learn_effect in Ha.
  destruct Ha as (vga & _ & Hcalls3 & F3 & Hopt3 & Htgt3 & Hcl3 & Hct3 & Hco3).
  exists b, m, y, vgc, vga.
  rewrite (critic_targets_read _ s) in Hy by reflexivity.
  split; [exact Hm|]. split; [exact Hy|].
  destruct F2 as [Fh2 Fd2 Fg2 Fc2 Fb2], F3 as [Fh3 Fd3 Fg3 Fc3 Fb3].
  cbn in Fh2, Fd2, Fg2, Fc2, Fb2, Hopt2, Htgt2, Hal2, Hat2, Hao2, Hcalls2.
  destruct (sample_inv (memory s) m b Hm) as (_ & Hcont & Hbs).
  rewrite actor_optimizer_before_actor_grad in Hopt3.
  rewrite Fd2, Fh2, Hal2, Hao2 in Hopt3.
  rewrite Fh2, Hat2 in Htgt3.
  split.
  { rewrite Hcalls3, Hcalls2, Fd2, Fh2. unfold update_calls.
    rewrite <- !app_assoc. reflexivity. }
  split.
  { split; congruence. }
  split.
  { rewrite Hcl3, Hco3. exact Hopt2. }
  split; [rewrite Hct3, Hcl3; exact Htgt2|].
  split; [exact Hopt3 | exact Htgt3].
Qed.

(** *** A learning session *)

Lemma for_range_learning_update (n : nat) : forall s s' u,
  for_range n learning_update s = Ok (u, s') ->
  exists new,
    calls s' = calls s ++ new /\
    session_calls (hyperparameters s) (done s) n new /\
    same_frame s s'.
Proof.
  induction n as [|n IH]; intros s s' u H.
  - inversion H; subst. exists []. rewrite app_nil_r.
    repeat split; constructor.
  - cbn [for_range] in H. unfold bind in H.
    destruct (learning_update s) as [[u1 s1]|e] eqn:H1; [|discriminate].
    apply learning_update_effect in H1.
    destruct H1 as (b & m & y & vgc & vga & _ & _ & Hcalls & F1 & _).
    apply IH in H. destruct H as (rest & Hrest & Hsess & F2).
    exists (update_calls (hyperparameters s) (done s) b y ++ rest).
    split; [rewrite Hrest, Hcalls, app_assoc; reflexivity|].
    split; [|eapply same_frame_trans; eassumption].
    constructor.
    destruct F1 as [Fh Fd _ _ _]. rewrite <- Fh, <- Fd. exact Hsess.
Qed.

Lemma learning_session_effect s s' u :
  learning_session s = Ok (u, s') ->
  exists new,
    calls s' = calls s ++ new /\
    session_calls (hyperparameters s) (done s)
      (Z.to_nat (learning_updates_per_learning_session (hyperparameters s))) new /\
    same_frame s s'.
Proof.
  unfold learning_session, bind, get. apply for_range_learning_update.
Qed.

Lemma count_calls_app (p : Call -> bool) (l1 l2 : list Call) :
  count_calls p (l1 ++ l2) = (count_calls p l1 + count_calls p l2)%nat.
Proof. unfold count_calls. rewrite filter_app, length_app. reflexivity. Qed.

Lemma count_session_calls h d n l :
  session_calls h d n l ->
  count_calls is_sample l = n /\
  count_calls (is_optimisation_step CriticOptimizer) l = n /\
  count_calls (is_optimisation_step ActorOptimizer) l = n.
Proof.
  induction 1 as [|n b y rest _ (IH1 & IH2 & IH3)]; [repeat split; reflexivity|].
  rewrite !count_calls_app, IH1, IH2, IH3.
  unfold update_calls; destruct d; repeat split; reflexivity.
Qed.

(** *** One iteration of the control loop *)

Lemma pick_action_inv s s' (a : list Q) :
  pick_action s = Ok (a, s') ->
  exists n, s' = set_exploration_strategy s n.
Proof.
  unfold pick_action, bind, get, lift, modify.
  destruct (forward (actor_net C (actor_local s) [state s])) as [m|e]; [|discriminate].
  destruct (perturb_action C (exploration_strategy s) m) as [a' n].
  destruct (squeeze0 a') as [r|e]; [|discriminate].
  intros H; inversion H; subst. exists n; reflexivity.
Qed.

Lemma time_to_learn_inv s s' (t : bool) :
  time_for_critic_and_actor_to_learn s = Ok (t, s') ->
  s' = s /\
  ((batch_size (hyperparameters s) <= buffer_len (memory s))%Z ->
   update_every_n_steps (hyperparameters s) <> 0%Z) /\
  (t = true <->
   (batch_size (hyperparameters s) <= buffer_len (memory s))%Z /\
   (global_step_number s mod update_every_n_steps (hyperparameters s) = 0)%Z).
Proof.
  unfold time_for_critic_and_actor_to_learn, bind, get, lift, ret,
    enough_experiences_to_learn_from, py_mod.
  destruct (Z.leb (batch_size (hyperparameters s)) (buffer_len (memory s))) eqn:Hle.
  - destruct (Z.eqb (update_every_n_steps (hyperparameters s)) 0) eqn:Hz; [discriminate|].
    intros H; inversion H; subst. split; [reflexivity|].
    apply Z.leb_le in Hle. apply Z.eqb_neq in Hz.
    rewrite Z.eqb_eq. tauto.
  - intros H; inversion H; subst. split; [reflexivity|].
    apply Z.leb_gt in Hle. split; [lia|]. split; [discriminate|]. intros (Hge & _). lia.
Qed.

Lemma acted_effect (a : list Q) s :
  calls (acted a s) = calls s ++ [CallConductAction a] /\
  hyperparameters (acted a s) = hyperparameters s /\
  memory (acted a s) = memory s /\
  global_step_number (acted a s) = global_step_number s.
Proof.
  unfold acted. destruct (env_step C (environment s) a) as [e [[ns r] d]].
  repeat split; reflexivity.
Qed.

(** The learning trigger, as read off the state at the start of an
    iteration. *)
Lemma step_iteration_effect s s' u :
  step_iteration s = Ok (u, s') ->
  exists (a : list Q) (t : Transition) (new : list Call),
    calls s' = calls s ++ CallConductAction a :: new ++ [CallSaveExperience t] /\
    hyperparameters s' = hyperparameters s /\
    rb_batch_size (memory s') = rb_batch_size (memory s) /\
    global_step_number s' = (global_step_number s + 1)%Z /\
    (time_to_learn s /\
     session_calls (hyperparameters s) (done s')
       (Z.to_nat (learning_updates_per_learning_session (hyperparameters s))) new
     \/ ~ time_to_learn s /\ new = []).
Proof.
  unfold step_iteration, bind.
  destruct (pick_action s) as [[a s1]|e] eqn:Hp; [|discriminate].
  apply pick_action_inv in Hp. destruct Hp as (n & ->).
  unfold conduct_action, save_experience, modify.
  set (sc := acted a (set_action (set_exploration_strategy s n) a)).
  destruct (acted_effect a (set_action (set_exploration_strategy s n) a))
    as (Hcalls & Hh & Hm & Hg).
  fold sc in Hcalls, Hh, Hm, Hg. cbn in Hcalls, Hh, Hm, Hg.
  destruct (time_for_critic_and_actor_to_learn sc) as [[t sc']|e] eqn:Ht; [|discriminate].
  apply time_to_learn_inv in Ht. destruct Ht as (-> & Hnz & Htrig).
  rewrite Hh, Hm in Hnz. rewrite Hh, Hm, Hg in Htrig.
  destruct t.
  - destruct (learning_session sc) as [[u1 sl]|e] eqn:Hl; [|discriminate].
    apply learning_session_effect in Hl.
    destruct Hl as (new & Hnew & Hsess & [Fh Fd Fg Fc Fb]).
    intros H; inversion H; subst; clear H.
    exists a, (current_transition sl), new. cbn.
    rewrite Hnew, Hcalls, <- !app_assoc. cbn.
    split; [reflexivity|]. split; [congruence|]. split; [congruence|].
    split; [congruence|].
    left. split; [unfold time_to_learn; tauto|].
    rewrite Hh in Hsess. rewrite Fd. exact Hsess.
  - intros H; inversion H; subst; clear H.
    exists a, (current_transition sc), []. cbn.
    rewrite Hcalls, <- !app_assoc. cbn.
    split; [reflexivity|]. split; [congruence|]. split; [congruence|].
    split; [congruence|].
    right. split; [|reflexivity].
    unfold time_to_learn. intros Hc. apply Htrig in Hc. discriminate.
Qed.

Lemma calls_since_app s s' (new : list Call) :
  calls s' = calls s ++ new -> calls_since (length (calls s)) s' = new.
Proof.
  unfold calls_since. intros ->.
  induction (calls s) as [|c l IH]; [reflexivity | exact IH].
Qed.

(** C2: in one pass through the inner loop of [step] the critic is learnt
    first and the actor after it, never one without the other; the critic
    targets handed to the critic's gradient are computed from the target
    networks of the state in which the pass starts; the critic target is
    soft-updated from the critic weights that the optimisation step has
    just produced, and the actor target is soft-updated only at the end. *)
Theorem critic_then_actor_in_each_update :
  forall s s' u,
    learning_update s = Ok (u, s') ->
    exists (b : Batch) (y : Column),
      compute_critic_targets s (next_states b) (rewards b) (dones b) = Ok y /\
      calls_since (length (calls s)) s'
      = [CallSample b;
         CallCriticGrad (states b) (actions b) y;
         CallOptimisationStep CriticOptimizer;
         CallSoftUpdate CriticLocal CriticTarget]
        ++ (if done s
            then [CallUpdateLearningRate (learning_rate (Actor (hyperparameters s)))
                                         ActorOptimizer]
            else [])
        ++ [CallActorGrad (states b);
            CallOptimisationStep ActorOptimizer;
            CallSoftUpdate ActorLocal ActorTarget] /\
      critic_target s'
      = soft_update_of_target_network (critic_local s') (critic_target s)
          (tau (Critic (hyperparameters s))) /\
      actor_target s'
      = soft_update_of_target_network (actor_local s') (actor_target s)
          (tau (Actor (hyperparameters s))).
Proof.
  intros s s' u H. apply learning_update_effect in H.
  destruct H as (b & m & y & vgc & vga & _ & Hy & Hcalls & _ & _ & Hct & _ & Hat).
  exists b, y. split; [exact Hy|]. split; [|split; assumption].
  apply calls_since_app. exact Hcalls.
Qed.

(** C10: one pass through the inner loop of [step] samples exactly once,
    and the states given to the actor's gradient are the states of that
    batch, the same that the critic's gradient received. *)
Theorem one_batch_shared_by_critic_and_actor :
  forall s s' u,
    learning_update s = Ok (u, s') ->
    exists (b : Batch) (m : Replay_Buffer (Rng C)) (y : Column),
      sample (memory s) = Ok (b, m) /\
      count_calls is_sample (calls_since (length (calls s)) s') = 1%nat /\
      In (CallSample b) (calls_since (length (calls s)) s') /\
      In (CallCriticGrad (states b) (actions b) y) (calls_since (length (calls s)) s') /\
      In (CallActorGrad (states b)) (calls_since (length (calls s)) s') /\
      (forall st ac y', In (CallCriticGrad st ac y') (calls_since (length (calls s)) s') ->
                        st = states b) /\
      (forall st, In (CallActorGrad st) (calls_since (length (calls s)) s') ->
                  st = states b).
Proof.
  intros s s' u H. apply learning_update_effect in H.
  destruct H as (b & m & y & vgc & vga & Hm & _ & Hcalls & _).
  exists b, m, y. split; [exact Hm|].
  rewrite (calls_since_app _ _ _ Hcalls).
  unfold update_calls. destruct (done s); cbn.
  - split; [reflexivity|]. split; [tauto|]. split; [tauto|]. split; [tauto|].
    split; intros ? ? ? Hin || intros ? Hin;
      repeat (destruct Hin as [Hin|Hin];
              [try discriminate; inversion Hin; reflexivity|]);
      contradiction.
  - split; [reflexivity|]. split; [tauto|]. split; [tauto|]. split; [tauto|].
    split; intros ? ? ? Hin || intros ? Hin;
      repeat (destruct Hin as [Hin|Hin];
              [try discriminate; inversion Hin; reflexivity|]);
      contradiction.
Qed.

(** C8: when the actor learning step runs with [done] set, the learning
    rate of the actor's optimiser is written first, then the gradient is
    taken and the optimisation step applied with that learning rate; the
    value written is the actor learning rate of the hyperparameters, which
    the step leaves as they are. *)
Theorem learning_rate_written_before_actor_update :
  forall s s' u (st : Matrix),
    done s = true ->
    actor_learn st s = Ok (u, s') ->
    exists vg : LossValue C * Grads C,
      calls_since (length (calls s)) s'
      = [CallUpdateLearningRate (learning_rate (Actor (hyperparameters s))) ActorOptimizer;
         CallActorGrad st;
         CallOptimisationStep ActorOptimizer;
         CallSoftUpdate ActorLocal ActorTarget] /\
      (actor_optimizer s', actor_local s')
      = optimiser_update C
          {| opt_learning_rate := learning_rate (Actor (hyperparameters s));
             opt_eps := opt_eps (actor_optimizer s);
             opt_state := opt_state (actor_optimizer s) |}
          (actor_local s) (snd vg)
          (gradient_clipping_norm (Actor (hyperparameters s))) /\
      hyperparameters s' = hyperparameters s.
Proof.
  intros s s' u st Hdone H. apply actor_learn_effect in H.
  destruct H as (vg & _ & Hcalls & [Fh _ _ _ _] & Hopt & _).
  exists vg. rewrite actor_optimizer_before_actor_grad in Hopt.
  rewrite Hdone in Hcalls, Hopt.
  split; [apply calls_since_app; exact Hcalls|].
  split; [exact Hopt | exact Fh].
Qed.

(** *** Which errors can surface *)

Lemma shape_only_ok {A : Type} (a : A) : shape_only (Ok a).
Proof. intros e H; discriminate. Qed.

Lemma shape_only_raise {A : Type} : shape_only (@Raise A ShapeMismatchError).
Proof. intros e H; inversion H; reflexivity. Qed.

Lemma shape_only_rbind {A B : Type} (r : result A) (k : A -> result B) :
  shape_only r -> (forall a, shape_only (k a)) -> shape_only (rbind r k).
Proof.
  intros Hr Hk e. destruct r as [a|e']; cbn.
  - apply Hk.
  - intros H; inversion H; subst. apply Hr; reflexivity.
Qed.

Lemma shape_only_forward {A : Type} (o : option A) : shape_only (forward o).
Proof. destruct o; [apply shape_only_ok | apply shape_only_raise]. Qed.

Lemma shape_only_cat (a b : Matrix) : shape_only (Tensor.cat_axis1 a b).
Proof.
  unfold Tensor.cat_axis1.
  destruct (Nat.eqb (length a) (length b)); [apply shape_only_ok | apply shape_only_raise].
Qed.

Lemma shape_only_broadcast (f : Q -> Q -> Q) (xs ys : Column) :
  shape_only (Tensor.broadcast f xs ys).
Proof.
  unfold Tensor.broadcast.
  destruct (Nat.eqb (length xs) (length ys)); [apply shape_only_ok|].
  destruct xs as [|x [|x' xs]], ys as [|y [|y' ys]];
    first [apply shape_only_ok | apply shape_only_raise].
Qed.

Create HintDb shapes.
#[local] Hint Resolve shape_only_ok shape_only_raise shape_only_forward shape_only_cat
  shape_only_broadcast : shapes.

Ltac shapes :=
  repeat match goal with
         | |- shape_only (rbind _ _) => apply shape_only_rbind; [|intros ?]
         end;
  auto with shapes.

Lemma shape_only_critic_targets s (ns : Matrix) (r d : Column) :
  shape_only (compute_critic_targets s ns r d).
Proof.
  unfold compute_critic_targets, compute_critic_values_for_next_states,
    compute_critic_values_for_current_states.
  shapes.
Qed.

Lemma shape_only_compute_loss s (st ac : Matrix) (y : Column) :
  shape_only (compute_loss s st ac y).
Proof.
  unfold compute_loss, compute_expected_critic_values, Tensor.mse_loss. shapes.
Qed.

Lemma shape_only_actor_loss s (st : Matrix) : shape_only (calculate_actor_loss s st).
Proof. unfold calculate_actor_loss. shapes. Qed.

Lemma shape_only_value_and_grad (fn : Params -> result Q) (w : Params) :
  shape_only (fn w) -> shape_only (@value_and_grad C fn w).
Proof. intros H. unfold value_and_grad. shapes. Qed.

Lemma critic_learn_errors (st ac : Matrix) (r : Column) (ns : Matrix) (d : Column) s e :
  critic_learn st ac r ns d s = Raise e -> e = ShapeMismatchError.
Proof.
  unfold critic_learn, take_optimisation_step, soft_update, bind, get, lift, modify.
  destruct (compute_critic_targets s ns r d) as [y|e1] eqn:Hy.
  - destruct (critic_grad_fn s st ac y) as [vg|e2] eqn:Hvg; [discriminate|].
    intros H; inversion H; subst.
    unfold critic_grad_fn in Hvg.
    eapply shape_only_value_and_grad; [|exact Hvg].
    apply shape_only_compute_loss.
  - intros H; inversion H; subst.
    eapply shape_only_critic_targets; exact Hy.
Qed.

Lemma actor_learn_errors (st : Matrix) s e :
  actor_learn st s = Raise e -> e = ShapeMismatchError.
Proof.
  unfold actor_learn, take_optimisation_step, soft_update, update_learning_rate,
    bind, get, lift, modify, ret.
  destruct (done s).
  - destruct (actor_grad_fn _ st) as [vg|e2] eqn:Hvg; [discriminate|].
    intros H; inversion H; subst.
    unfold actor_grad_fn in Hvg.
    eapply shape_only_value_and_grad; [|exact Hvg].
    apply shape_only_actor_loss.
  - destruct (actor_grad_fn _ st) as [vg|e2] eqn:Hvg; [discriminate|].
    intros H; inversion H; subst.
    unfold actor_grad_fn in Hvg.
    eapply shape_only_value_and_grad; [|exact Hvg].
    apply shape_only_actor_loss.
Qed.

Lemma learning_update_errors s :
  (rb_batch_size (memory s) <= buffer_len (memory s))%Z ->
  learning_update s <> Raise InsufficientDataError.
Proof.
  intros Hle. unfold learning_update, bind, sample_experiences.
  pose proof (sample_enough (memory s) Hle) as Hs.
  destruct (sample (memory s)) as [[b m]|e] eqn:Hm.
  - destruct (critic_learn _ _ _ _ _ _) as [[u1 s2]|e] eqn:Hc.
    + intros Ha. apply actor_learn_errors in Ha. discriminate.
    + intros H; inversion H; subst. apply critic_learn_errors in Hc. discriminate.
  - intros H; inversion H; subst. apply Hs; reflexivity.
Qed.

Lemma for_range_errors (n : nat) : forall s,
  (rb_batch_size (memory s) <= buffer_len (memory s))%Z ->
  for_range n learning_update s <> Raise InsufficientDataError.
Proof.
  induction n as [|n IH]; intros s Hle; [discriminate|].
  cbn [for_range]. unfold bind.
  destruct (learning_update s) as [[u1 s1]|e] eqn:H1.
  - apply learning_update_effect in H1.
    destruct H1 as (b & m & y & vgc & vga & _ & _ & _ & [_ _ _ Fc Fb] & _).
    apply IH. unfold buffer_len in *. rewrite Fc, Fb. exact Hle.
  - intros H; inversion H; subst.
    apply (learning_update_errors s Hle). exact H1.
Qed.

Lemma pick_action_errors s e : pick_action s = Raise e -> e = ShapeMismatchError.
Proof.
  unfold pick_action, bind, get, lift, modify.
  destruct (actor_net C (actor_local s) [state s]) as [m|]; cbn;
    [|intros H; inversion H; reflexivity].
  destruct (perturb_action C (exploration_strategy s) m) as [a' n].
  destruct a' as [|r [|r' a']]; cbn; intros H; inversion H; reflexivity.
Qed.

Lemma step_iteration_errors s :
  memory_consistent s -> step_iteration s <> Raise InsufficientDataError.
Proof.
  intros Hcons. unfold step_iteration, bind.
  destruct (pick_action s) as [[a s1]|e] eqn:Hp.
  2:{ intros H; inversion H; subst. apply pick_action_errors in Hp. discriminate. }
  apply pick_action_inv in Hp. destruct Hp as (n & ->).
  unfold conduct_action, save_experience, modify.
  set (sc := acted a (set_action (set_exploration_strategy s n) a)).
  destruct (acted_effect a (set_action (set_exploration_strategy s n) a))
    as (_ & Hh & Hm & _).
  fold sc in Hh, Hm. cbn in Hh, Hm.
  destruct (time_for_critic_and_actor_to_learn sc) as [[t sc']|e] eqn:Ht.
  - apply time_to_learn_inv in Ht. destruct Ht as (-> & _ & Htrig).
    destruct t; [|discriminate].
    destruct (learning_session sc) as [[u1 sl]|e] eqn:Hl; [discriminate|].
    intros H; inversion H; subst.
    revert Hl. unfold learning_session, bind, get. apply for_range_errors.
    rewrite Hm. unfold memory_consistent in Hcons. rewrite Hcons, <- Hh, <- Hm.
    apply Htrig; reflexivity.
  - intros H; inversion H; subst. revert Ht.
    unfold time_for_critic_and_actor_to_learn, bind, get, lift, ret, py_mod.
    destruct (enough_experiences_to_learn_from sc); [|discriminate].
    destruct (Z.eqb (update_every_n_steps (hyperparameters sc)) 0); discriminate.
Qed.

Lemma step_iteration_consistent s s' u :
  memory_consistent s -> step_iteration s = Ok (u, s') -> memory_consistent s'.
Proof.
  intros Hcons H. apply step_iteration_effect in H.
  destruct H as (a & t & new & _ & Hh & Hb & _).
  unfold memory_consistent in *. congruence.
Qed.

Lemma step_errors (fuel : nat) : forall s,
  memory_consistent s -> step fuel s <> Some (Raise InsufficientDataError).
Proof.
  induction fuel as [|fuel IH]; intros s Hcons; cbn [step].
  - destruct (done s); discriminate.
  - destruct (done s); [discriminate|].
    destruct (step_iteration s) as [[u s1]|e] eqn:H1.
    + apply IH. eapply step_iteration_consistent; eassumption.
    + intros H; inversion H; subst.
      apply (step_iteration_errors s Hcons). exact H1.
Qed.

(** C6: from a state in which the replay buffer carries the batch size of
    the hyperparameters (as the constructor leaves it), the control loop
    never ends in [InsufficientDataError]; and an iteration in which a
    sampling call is made started with at least [batch_size] transitions
    in the buffer. *)
Theorem sampling_only_under_the_guard :
  forall s,
    memory_consistent s ->
    (forall fuel, step fuel s <> Some (Raise InsufficientDataError)) /\
    (forall s' u,
       step_iteration s = Ok (u, s') ->
       (0 < count_calls is_sample (calls_since (length (calls s)) s'))%nat ->
       (batch_size (hyperparameters s) <= buffer_len (memory s))%Z).
Proof.
  intros s Hcons. split.
  - intros fuel. apply step_errors; exact Hcons.
  - intros s' u H Hcount. apply step_iteration_effect in H.
    destruct H as (a & t & new & Hcalls & _ & _ & _ & Hcase).
    destruct Hcase as [((Hle & _) & _)|(_ & ->)]; [exact Hle|].
    rewrite (calls_since_app _ _ _ Hcalls) in Hcount.
    cbn in Hcount. lia.
Qed.

Lemma DDPG_init_consistent (config : Config C) : memory_consistent (DDPG_init config).
Proof.
  unfold DDPG_init, memory_consistent.
  repeat match goal with
         | |- context [create_NN ?c ?i ?a ?b ?k] => destruct (create_NN c i a b k)
         end.
  reflexivity.
Qed.

End Control.

(** ** Construction and the absence of a finiteness check *)

Section Construction.

Variable C : Collaborators.
Implicit Types s : Agent C.

(** C7, as the code has it: a learning call never looks at the loss value or
    at the gradient.  Whatever the gradient function returns, the call
    completes, the optimisation step is applied once with the gradient
    returned, and the soft update of the target follows; the loss value
    plays no part. *)
Theorem learning_calls_always_take_the_step :
  (forall s (st ac : Matrix) (r : Column) (ns : Matrix) (d y : Column)
          (vg : LossValue C * Grads C),
     compute_critic_targets s ns r d = Ok y ->
     critic_grad_fn s st ac y = Ok vg ->
     exists s',
       critic_learn st ac r ns d s = Ok (tt, s') /\
       count_calls (is_optimisation_step CriticOptimizer)
                   (calls_since (length (calls s)) s') = 1%nat /\
       (critic_optimizer s', critic_local s')
       = optimiser_update C (critic_optimizer s) (critic_local s) (snd vg)
           (gradient_clipping_norm (Critic (hyperparameters s))) /\
       critic_target s'
       = soft_update_of_target_network (critic_local s') (critic_target s)
           (tau (Critic (hyperparameters s)))) /\
  (forall s (st : Matrix) (vg : LossValue C * Grads C),
     actor_grad_fn (before_actor_grad s) st = Ok vg ->
     exists s',
       actor_learn st s = Ok (tt, s') /\
       count_calls (is_optimisation_step ActorOptimizer)
                   (calls_since (length (calls s)) s') = 1%nat /\
       (actor_optimizer s', actor_local s')
       = optimiser_update C (actor_optimizer (before_actor_grad s)) (actor_local s) (snd vg)
           (gradient_clipping_norm (Actor (hyperparameters s))) /\
       actor_target s'
       = soft_update_of_target_network (actor_local s') (actor_target s)
           (tau (Actor (hyperparameters s)))).
Proof.
  split.
  - intros s st ac r ns d y vg Hy Hvg.
    assert (Hrun : exists s', critic_learn st ac r ns d s = Ok (tt, s')).
    { unfold critic_learn, take_optimisation_step, soft_update, bind, get, lift, modify.
      rewrite Hy, Hvg. eexists; reflexivity. }
    destruct Hrun as (s' & Hrun). exists s'. split; [exact Hrun|].
    apply critic_learn_effect in Hrun.
    destruct Hrun as (y' & vg' & Hy' & Hvg' & Hcalls & _ & Hopt & Htgt & _).
    rewrite Hy in Hy'. inversion Hy'; subst y'.
    rewrite Hvg in Hvg'. inversion Hvg'; subst vg'.
    rewrite (calls_since_app _ _ _ _ Hcalls).
    split; [reflexivity|]. split; assumption.
  - intros s st vg Hvg.
    assert (Hrun : exists s', actor_learn st s = Ok (tt, s')).
    { revert Hvg.
      unfold actor_learn, before_actor_grad, take_optimisation_step, soft_update,
        update_learning_rate, bind, get, lift, modify, ret.
      destruct (done s); intros Hvg; rewrite Hvg; eexists; reflexivity. }
    destruct Hrun as (s' & Hrun). exists s'. split; [exact Hrun|].
    apply actor_learn_effect in Hrun.
    destruct Hrun as (vg' & Hvg' & Hcalls & _ & Hopt & Htgt & _).
    rewrite Hvg in Hvg'. inversion Hvg'; subst vg'.
    rewrite (calls_since_app _ _ _ _ Hcalls).
    split; [destruct (done s); reflexivity|]. split; assumption.
Qed.

End Construction.

(** ** The statements on the concrete instance *)

(** C4 on the instance: the critic values a state-action row by the sum of
    its entries; actor A triples the state, actor B doubles it. *)
Lemma actor_loss_formula_and_sign_witness :
  calculate_actor_loss Demo.agent0 [[1]; [2]] = Ok (- Tensor.mean [4; 8]) /\
  calculate_actor_loss (set_actor_local Demo.agent0 [2]) [[1]; [2]]
  = Ok (- Tensor.mean [3; 6]) /\
  - Tensor.mean [4; 8] < - Tensor.mean [3; 6].
Proof.
  apply (@actor_loss_formula_and_sign Demo.backend
           Demo.agent0 (set_actor_local Demo.agent0 [2])
           [[1]; [2]] [[3]; [6]] [[2]; [4]] [[1; 3]; [2; 6]] [[1; 2]; [2; 4]]
           [4; 8] [3; 6]);
    try reflexivity.
  - discriminate.
  - repeat constructor.
Defined.

(** C2 on the instance. *)
Lemma critic_then_actor_in_each_update_witness :
  exists (b : Batch) (y : Column),
    compute_critic_targets Demo.agent0 (next_states b) (rewards b) (dones b) = Ok y /\
    calls_since (length (calls Demo.agent0)) Demo.after_update
    = [CallSample b;
       CallCriticGrad (states b) (actions b) y;
       CallOptimisationStep CriticOptimizer;
       CallSoftUpdate CriticLocal CriticTarget]
      ++ (if done Demo.agent0
          then [CallUpdateLearningRate (learning_rate (Actor (hyperparameters Demo.agent0)))
                                       ActorOptimizer]
          else [])
      ++ [CallActorGrad (states b);
          CallOptimisationStep ActorOptimizer;
          CallSoftUpdate ActorLocal ActorTarget] /\
    critic_target Demo.after_update
    = soft_update_of_target_network (critic_local Demo.after_update)
        (critic_target Demo.agent0) (tau (Critic (hyperparameters Demo.agent0))) /\
    actor_target Demo.after_update
    = soft_update_of_target_network (actor_local Demo.after_update)
        (actor_target Demo.agent0) (tau (Actor (hyperparameters Demo.agent0))).
Proof.
  apply (@critic_then_actor_in_each_update Demo.backend Demo.agent0 Demo.after_update tt).
  reflexivity.
Defined.

(** C10 on the instance. *)
Lemma one_batch_shared_by_critic_and_actor_witness :
  exists (b : Batch) (m : Replay_Buffer nat) (y : Column),
    sample (memory Demo.agent0) = Ok (b, m) /\
    count_calls is_sample (calls_since (length (calls Demo.agent0)) Demo.after_update) = 1%nat /\
    In (CallSample b) (calls_since (length (calls Demo.agent0)) Demo.after_update) /\
    In (CallCriticGrad (states b) (actions b) y)
       (calls_since (length (calls Demo.agent0)) Demo.after_update) /\
    In (CallActorGrad (states b)) (calls_since (length (calls Demo.agent0)) Demo.after_update) /\
    (forall st ac y',
       In (CallCriticGrad st ac y') (calls_since (length (calls Demo.agent0)) Demo.after_update) ->
       st = states b) /\
    (forall st,
       In (CallActorGrad st) (calls_since (length (calls Demo.agent0)) Demo.after_update) ->
       st = states b).
Proof.
  apply (@one_batch_shared_by_critic_and_actor Demo.backend Demo.agent0 Demo.after_update tt).
  reflexivity.
Defined.

(** C8 on the instance, at the end of an episode. *)
Lemma learning_rate_written_before_actor_update_witness :
  exists vg : Demo.F32 * list Demo.F32,
    calls_since (length (calls Demo.ended_agent)) Demo.after_actor_learn
    = [CallUpdateLearningRate (learning_rate (Actor (hyperparameters Demo.ended_agent)))
                              ActorOptimizer;
       CallActorGrad [[1]; [2]];
       CallOptimisationStep ActorOptimizer;
       CallSoftUpdate ActorLocal ActorTarget] /\
    (actor_optimizer Demo.after_actor_learn, actor_local Demo.after_actor_learn)
    = Demo.guarded_descent
        {| opt_learning_rate := learning_rate (Actor (hyperparameters Demo.ended_agent));
           opt_eps := opt_eps (actor_optimizer Demo.ended_agent);
           opt_state := opt_state (actor_optimizer Demo.ended_agent) |}
        (actor_local Demo.ended_agent) (snd vg)
        (gradient_clipping_norm (Actor (hyperparameters Demo.ended_agent))) /\
    hyperparameters Demo.after_actor_learn = hyperparameters Demo.ended_agent.
Proof.
  apply (@learning_rate_written_before_actor_update Demo.backend
           Demo.ended_agent Demo.after_actor_learn tt [[1]; [2]]).
  - reflexivity.
  - reflexivity.
Defined.

(** C6 on the instance. *)
Lemma sampling_only_under_the_guard_witness :
  (forall fuel, step fuel Demo.agent0 <> Some (Raise InsufficientDataError)) /\
  (forall s' u,
     step_iteration Demo.agent0 = Ok (u, s') ->
     (0 < count_calls is_sample (calls_since (length (calls Demo.agent0)) s'))%nat ->
     (batch_size (hyperparameters Demo.agent0) <= buffer_len (memory Demo.agent0))%Z).
Proof.
  apply (@sampling_only_under_the_guard Demo.backend Demo.agent0).
  reflexivity.
Defined.

(** C7, as the code has it, on the instance: the batch on which the loss
    is non-finite, and an actor step at the end of an episode. *)
Lemma learning_calls_always_take_the_step_witness :
  (exists s',
     critic_learn [[1]] [[0]] [0] [[0]] [1] Demo.large_agent = Ok (tt, s') /\
     count_calls (is_optimisation_step CriticOptimizer)
                 (calls_since (length (calls Demo.large_agent)) s') = 1%nat) /\
  (exists s',
     actor_learn [[1]; [2]] Demo.ended_agent = Ok (tt, s') /\
     count_calls (is_optimisation_step ActorOptimizer)
                 (calls_since (length (calls Demo.ended_agent)) s') = 1%nat).
Proof.
  destruct (@learning_calls_always_take_the_step Demo.backend) as [Hc Ha].
  split.
  - destruct (Hc Demo.large_agent [[1]] [[0]] [0] [[0]] [1] [0 # 10]
                (Demo.NonFinite, [Demo.Finite 200000000000000000001; Demo.Finite 0]))
      as (s' & Hrun & Hcount & _).
    + reflexivity.
    + reflexivity.
    + exists s'. split; assumption.
  - destruct (Ha Demo.ended_agent [[1]; [2]]
                (Demo.Finite (-12 # 2), [Demo.Finite (-3 # 2)]))
      as (s' & Hrun & Hcount & _).
    + reflexivity.
    + exists s'. split; assumption.
Defined.

(** C7 as stated fails: on this batch the loss is non-finite, yet the
    optimisation step is taken and the critic weights change. *)
Lemma non_finite_loss_does_not_stop_the_update :
  compute_critic_targets Demo.large_agent [[0]] [0] [1] = Ok [0 # 10] /\
  (exists g, critic_grad_fn Demo.large_agent [[1]] [[0]] [0 # 10] = Ok (Demo.NonFinite, g) /\
             Demo.is_finite (fst (Demo.NonFinite, g)) = false) /\
  critic_learn [[1]] [[0]] [0] [[0]] [1] Demo.large_agent = Ok (tt, Demo.after_large_batch) /\
  In (CallOptimisationStep CriticOptimizer) (calls Demo.after_large_batch) /\
  critic_local Demo.after_large_batch <> critic_local Demo.large_agent.
Proof.
  split; [reflexivity|].
  split; [eexists; split; reflexivity|].
  split; [reflexivity|].
  split; [simpl; tauto|].
  vm_compute. intros H. discriminate H.
Qed.

(** * Further facts about DDPG.py *)

(** ** What the loss computations read *)

Section MoreLosses.

Variable C : Collaborators.
Implicit Types s : Agent C.

(** What the two loss computations read. *)
Lemma losses_read s1 s2 (st ac : Matrix) (y : Column) :
  critic_local s1 = critic_local s2 ->
  compute_loss s1 st ac y = compute_loss s2 st ac y /\
  (actor_local s1 = actor_local s2 ->
   calculate_actor_loss s1 st = calculate_actor_loss s2 st).
Proof.
  intros Hc. split.
  - unfold compute_loss, compute_expected_critic_values. rewrite Hc. reflexivity.
  - intros Ha. unfold calculate_actor_loss. rewrite Hc, Ha. reflexivity.
Qed.

(** X2: the critic targets are computed from the two target networks and
    the discount rate alone, and the two losses from the local networks
    alone: agents that agree on those give the same targets and losses,
    whatever else differs between them. *)
Theorem targets_and_losses_read_their_own_networks :
  forall s1 s2 (st ac ns : Matrix) (r d y : Column),
    (actor_target s1 = actor_target s2 ->
     critic_target s1 = critic_target s2 ->
     discount_rate (hyperparameters s1) = discount_rate (hyperparameters s2) ->
     compute_critic_targets s1 ns r d = compute_critic_targets s2 ns r d) /\
    (critic_local s1 = critic_local s2 ->
     compute_loss s1 st ac y = compute_loss s2 st ac y) /\
    (critic_local s1 = critic_local s2 ->
     actor_local s1 = actor_local s2 ->
     calculate_actor_loss s1 st = calculate_actor_loss s2 st).
Proof.
  intros s1 s2 st ac ns r d y. split; [|split].
  - intros Ha Hc Hg.
    unfold compute_critic_targets, compute_critic_values_for_next_states,
      compute_critic_values_for_current_states.
    rewrite Ha, Hc, Hg. reflexivity.
  - intros Hc. apply (losses_read s1 s2 st ac y Hc).
  - intros Hc Ha. apply (losses_read s1 s2 st ac y Hc). exact Ha.
Qed.

End MoreLosses.

(** ** The learning trigger *)

Section MoreControl.

Variable C : Collaborators.
Implicit Types s : Agent C.

(** X3: the trigger evaluates the modulus only when there are enough
    experiences.  Without enough experiences it answers no, even for
    [update_every_n_steps] = 0; with enough experiences a zero
    [update_every_n_steps] raises [ZeroDivisionError], and any other value
    makes it answer yes exactly at the global step numbers it divides.  The
    agent is never changed. *)
Theorem trigger_short_circuits :
  forall s,
    (enough_experiences_to_learn_from s = false ->
     time_for_critic_and_actor_to_learn s = Ok (false, s)) /\
    (enough_experiences_to_learn_from s = true ->
     update_every_n_steps (hyperparameters s) = 0%Z ->
     time_for_critic_and_actor_to_learn s = Raise ZeroDivisionError) /\
    (enough_experiences_to_learn_from s = true ->
     update_every_n_steps (hyperparameters s) <> 0%Z ->
     exists t,
       time_for_critic_and_actor_to_learn s = Ok (t, s) /\
       (t = true <->
        (update_every_n_steps (hyperparameters s) | global_step_number s)%Z)).
Proof.
  intros s.
  unfold time_for_critic_and_actor_to_learn, bind, get, lift, ret, py_mod.
  split; [|split].
  - intros ->. reflexivity.
  - intros -> ->. reflexivity.
  - intros -> Hn.
    destruct (Z.eqb (update_every_n_steps (hyperparameters s)) 0) eqn:Hz.
    + apply Z.eqb_eq in Hz. contradiction.
    + eexists. split; [reflexivity|].
      rewrite Z.eqb_eq. apply Z.mod_divide. exact Hn.
Qed.

(** ** What the learning steps leave alone *)

Lemma same_episode_refl s : same_episode s s.
Proof. split; reflexivity. Qed.

Lemma same_episode_trans s1 s2 s3 :
  same_episode s1 s2 -> same_episode s2 s3 -> same_episode s1 s3.
Proof. intros [] []; split; congruence. Qed.

Lemma same_networks_refl s : same_networks s s.
Proof. split; reflexivity. Qed.

Lemma same_networks_trans s1 s2 s3 :
  same_networks s1 s2 -> same_networks s2 s3 -> same_networks s1 s3.
Proof. intros [] []; split; congruence. Qed.

Ltac open_steps :=
  unfold soft_updated, optimisation_step, before_actor_grad, with_learning_rate,
    record_call, saved, advanced;
  cbn;
  repeat match goal with
         | |- context [optimiser_update ?c ?o ?p ?g ?n] =>
             destruct (optimiser_update c o p g n); cbn
         | |- context [if done ?s then _ else _] => destruct (done s); cbn
         end.

Lemma critic_learn_episode (st ac : Matrix) (r : Column) (ns : Matrix) (d : Column) s s' u :
  critic_learn st ac r ns d s = Ok (u, s') ->
  same_episode s s' /\ memory s' = memory s.
Proof.
  intros H. apply critic_learn_inv in H. destruct H as (y & vg & _ & _ & ->).
  open_steps. split; [split|]; reflexivity.
Qed.

Lemma actor_learn_episode (st : Matrix) s s' u :
  actor_learn st s = Ok (u, s') ->
  same_episode s s' /\ memory s' = memory s.
Proof.
  intros H. apply actor_learn_inv in H. destruct H as (vg & _ & ->).
  open_steps; (split; [split|]; reflexivity).
Qed.

Lemma sample_capacity (m m' : Replay_Buffer (Rng C)) (b : Batch) :
  sample m = Ok (b, m') -> capacity m' = capacity m.
Proof.
  unfold sample.
  destruct (Z.ltb (buffer_len m) (rb_batch_size m)); [discriminate|].
  destruct (random_sample C (rng m) (contents m) (Z.to_nat (rb_batch_size m))).
  intros H; inversion H; subst; reflexivity.
Qed.

Lemma learning_update_episode s s' u :
  learning_update s = Ok (u, s') -> same_episode s s'.
Proof.
  unfold learning_update, bind.
  destruct (sample_experiences s) as [[b s1]|e] eqn:Hs; [|discriminate].
  destruct (critic_learn _ _ _ _ _ s1) as [[u1 s2]|e] eqn:Hc; [|discriminate].
  intros Ha.
  apply sample_experiences_inv in Hs. destruct Hs as (m & Hm & ->).
  apply sample_capacity in Hm.
  apply critic_learn_episode in Hc. destruct Hc as ([] & Hm2).
  apply actor_learn_episode in Ha. destruct Ha as ([] & Hm3).
  cbn in *. split; try congruence.
Qed.

Lemma for_range_episode (n : nat) : forall s s' u,
  for_range n learning_update s = Ok (u, s') -> same_episode s s'.
Proof.
  induction n as [|n IH]; intros s s' u H.
  - inversion H; subst. apply same_episode_refl.
  - cbn [for_range] in H. unfold bind in H.
    destruct (learning_update s) as [[u1 s1]|e] eqn:H1; [|discriminate].
    eapply same_episode_trans; [eapply learning_update_episode; exact H1|].
    eapply IH; exact H.
Qed.

End MoreControl.

(** ** The anatomy of one iteration *)

Section MoreLoop.

Variable C : Collaborators.
Implicit Types s : Agent C.

Lemma step_iteration_inv s s' u :
  step_iteration s = Ok (u, s') ->
  exists (a : list Q) (n : Noise C) (t : bool) (sl : Agent C),
    pick_action s = Ok (a, set_exploration_strategy s n) /\
    time_for_critic_and_actor_to_learn (arrived a n s) = Ok (t, arrived a n s) /\
    (if t then learning_session (arrived a n s) = Ok (tt, sl) else sl = arrived a n s) /\
    s' = advanced (saved sl).
Proof.
  unfold step_iteration, bind.
  destruct (pick_action s) as [[a s1]|e] eqn:Hp; [|discriminate].
  destruct (pick_action_inv _ _ _ _ Hp) as (n & ->).
  unfold conduct_action, save_experience, modify.
  change (acted a (set_action (set_exploration_strategy s n) a)) with (arrived a n s).
  destruct (time_for_critic_and_actor_to_learn (arrived a n s)) as [[t sc']|e] eqn:Ht;
    [|discriminate].
  destruct (time_to_learn_inv _ _ _ _ Ht) as (-> & _ & _).
  destruct t.
  - destruct (learning_session (arrived a n s)) as [[[] sl]|e] eqn:Hl; [|discriminate].
    intros H; inversion H; subst.
    exists a, n, true, sl. repeat split; assumption.
  - intros H; inversion H; subst.
    exists a, n, false, (arrived a n s). repeat split; assumption.
Qed.

Lemma arrived_effect (a : list Q) (n : Noise C) s :
  calls (arrived a n s) = calls s ++ [CallConductAction a] /\
  same_networks s (arrived a n s) /\
  memory (arrived a n s) = memory s /\
  hyperparameters (arrived a n s) = hyperparameters s /\
  global_step_number (arrived a n s) = global_step_number s /\
  episode_number (arrived a n s) = episode_number s /\
  state (arrived a n s) = state s /\
  action (arrived a n s) = a.
Proof.
  unfold arrived, acted. cbn.
  destruct (env_step C (environment s) a) as [e [[ns r] d]]. cbn.
  repeat split; reflexivity.
Qed.

Lemma add_experience_contents (m1 m2 : Replay_Buffer (Rng C)) (t : Transition) :
  contents m1 = contents m2 -> capacity m1 = capacity m2 ->
  contents (add_experience m1 t) = contents (add_experience m2 t).
Proof. unfold add_experience; cbn. intros -> ->. reflexivity. Qed.

(** The session of an iteration, whether one was started or not. *)
Lemma iteration_session (a : list Q) (n : Noise C) (t : bool) s sl :
  time_for_critic_and_actor_to_learn (arrived a n s) = Ok (t, arrived a n s) ->
  (if t then learning_session (arrived a n s) = Ok (tt, sl) else sl = arrived a n s) ->
  exists session k,
    calls sl = calls s ++ CallConductAction a :: session /\
    session_calls (hyperparameters s) (done sl) k session /\
    (k = if t then Z.to_nat (learning_updates_per_learning_session (hyperparameters s))
         else O) /\
    (t = true <-> time_to_learn s) /\
    same_frame (arrived a n s) sl /\
    same_episode (arrived a n s) sl /\
    (k = O -> sl = arrived a n s).
Proof.
  intros Ht Hl.
  destruct (arrived_effect a n s) as (Hcalls & _ & Hm & Hh & Hg & _).
  destruct (time_to_learn_inv _ _ _ _ Ht) as (_ & _ & Htrig).
  rewrite Hh, Hm, Hg in Htrig. fold (time_to_learn s) in Htrig.
  destruct t.
  - pose proof Hl as Hl'. apply learning_session_effect in Hl'.
    destruct Hl' as (new & Hnew & Hsess & F).
    exists new, (Z.to_nat (learning_updates_per_learning_session (hyperparameters s))).
    split; [rewrite Hnew, Hcalls, <- app_assoc; reflexivity|].
    pose proof F as [Fh Fd _ _ _].
    split; [rewrite Hh in Hsess; rewrite Fd; exact Hsess|].
    split; [reflexivity|]. split; [exact Htrig|]. split; [exact F|].
    split.
    + revert Hl. unfold learning_session, bind, get. apply for_range_episode.
    + intros Hk. revert Hl. unfold learning_session, bind, get.
      rewrite Hh, Hk. cbn. intros H; inversion H; reflexivity.
  - subst sl. exists [], O.
    split; [exact Hcalls|]. split; [constructor|]. split; [reflexivity|].
    split; [exact Htrig|]. split; [split; reflexivity|].
    split; [apply same_episode_refl | reflexivity].
Qed.

Lemma session_calls_other_counts h d n l :
  session_calls h d n l ->
  count_calls is_conduct_action l = O /\
  count_calls is_save_experience l = O /\
  count_calls is_update_learning_rate l = (if d then n else O).
Proof.
  induction 1 as [|n b y rest _ (IH1 & IH2 & IH3)]; [destruct d; repeat split; reflexivity|].
  rewrite !count_calls_app, IH1, IH2, IH3.
  unfold update_calls; destruct d; repeat split; reflexivity.
Qed.

(** Everything an iteration that completes has done, in one place. *)
Lemma step_iteration_anatomy s s' u :
  step_iteration s = Ok (u, s') ->
  exists (a : list Q) (session : list Call) (k : nat),
    calls s' = calls s ++ CallConductAction a :: session
                 ++ [CallSaveExperience
                       {| t_state := state s; t_action := a; t_reward := reward s';
                          t_next_state := state s'; t_done := done s' |}] /\
    session_calls (hyperparameters s) (done s') k session /\
    (k = O -> same_networks s s') /\
    (k <= Z.to_nat (learning_updates_per_learning_session (hyperparameters s)))%nat /\
    (~ time_to_learn s -> k = O) /\
    ((learning_updates_per_learning_session (hyperparameters s) <= 0)%Z -> k = O) /\
    action s' = a /\
    state s' = next_state s' /\
    global_step_number s' = (global_step_number s + 1)%Z /\
    episode_number s' = episode_number s /\
    hyperparameters s' = hyperparameters s /\
    contents (memory s')
    = contents (add_experience (memory s)
                  {| t_state := state s; t_action := a; t_reward := reward s';
                     t_next_state := state s'; t_done := done s' |}).
Proof.
  intros H. apply step_iteration_inv in H.
  destruct H as (a & n & t & sl & _ & Ht & Hl & ->).
  destruct (iteration_session a n t s sl Ht Hl)
    as (session & k & Hcalls & Hsess & Hk & Htrig & F & E & Hquiet).
  destruct (arrived_effect a n s) as (_ & N & Hm & Hh & Hg & He & Hs & Ha).
  destruct F as [Fh Fd Fg Fc Fb].
  destruct E as [Es Ens Ea Er Ee Eenv Eexp Ecap].
  exists a, session, k.
  unfold advanced, saved, current_transition. cbn.
  rewrite Es, Ea, Hs, Ha, Hcalls, <- app_assoc. cbn.
  split; [reflexivity|]. split; [exact Hsess|].
  split.
  { intros Hk0. rewrite (Hquiet Hk0). destruct N; split; assumption. }
  split.
  { subst k. destruct t; lia. }
  split.
  { intros Hno. subst k. destruct t; [|reflexivity].
    exfalso. apply Hno. apply Htrig. reflexivity. }
  split.
  { intros Hle. subst k. destruct t; [|reflexivity].
    destruct (learning_updates_per_learning_session (hyperparameters s));
      try reflexivity; lia. }
  split; [reflexivity|]. split; [reflexivity|].
  split; [congruence|]. split; [congruence|]. split; [congruence|].
  apply add_experience_contents; [rewrite Fc, Hm | rewrite Ecap, Hm]; reflexivity.
Qed.

(** X4: an iteration that starts no learning session, because the trigger
    is off or because [learning_updates_per_learning_session] is not
    positive, conducts the action, stores the transition and changes none
    of the four networks and neither optimiser. *)
Theorem iteration_without_session_leaves_networks :
  forall s s' u,
    step_iteration s = Ok (u, s') ->
    ~ ((batch_size (hyperparameters s) <= buffer_len (memory s))%Z /\
       (global_step_number s mod update_every_n_steps (hyperparameters s) = 0)%Z)
    \/ (learning_updates_per_learning_session (hyperparameters s) <= 0)%Z ->
    same_networks s s' /\
    exists (a : list Q) (t : Transition),
      calls_since (length (calls s)) s' = [CallConductAction a; CallSaveExperience t].
Proof.
  intros s s' u H Hoff. apply step_iteration_anatomy in H.
  destruct H as (a & session & k & Hcalls & Hsess & Hnet & _ & Hno & Hle & _).
  assert (Hk : k = O) by (destruct Hoff; [apply Hno | apply Hle]; assumption).
  split; [apply Hnet; exact Hk|].
  subst k. inversion Hsess; subst.
  eexists a, _. apply calls_since_app. exact Hcalls.
Qed.

(** X5: an iteration that completes stores exactly the transition it has
    just made - from the state it started in, by the action it picked, to
    the state it ends in - then stands in that next state with the global
    step number increased by one; the episode number and the
    hyperparameters are as before. *)
Theorem iteration_stores_then_advances :
  forall s s' u,
    step_iteration s = Ok (u, s') ->
    exists (a : list Q) (t : Transition),
      t = {| t_state := state s; t_action := a; t_reward := reward s';
             t_next_state := state s'; t_done := done s' |} /\
      hd_error (calls_since (length (calls s)) s') = Some (CallConductAction a) /\
      last (calls_since (length (calls s)) s') (CallConductAction a) = CallSaveExperience t /\
      contents (memory s') = contents (add_experience (memory s) t) /\
      action s' = a /\
      state s' = next_state s' /\
      global_step_number s' = (global_step_number s + 1)%Z /\
      episode_number s' = episode_number s /\
      hyperparameters s' = hyperparameters s.
Proof.
  intros s s' u H. apply step_iteration_anatomy in H.
  destruct H as (a & session & k & Hcalls & _ & _ & _ & _ & _ & Ha & Hs & Hg & He & Hh & Hc).
  exists a. eexists. split; [reflexivity|].
  rewrite (calls_since_app _ _ _ _ Hcalls).
  split; [reflexivity|].
  split; [cbn [last]|].
  { rewrite last_last. destruct (session ++ _) eqn:E; [|reflexivity].
    destruct session; discriminate. }
  repeat split; assumption.
Qed.

(** X7: within an iteration the learning rate is written once for every
    learning update if the action has ended the episode, and not at all
    otherwise. *)
Theorem learning_rate_written_per_update_at_episode_end :
  forall s s' u,
    step_iteration s = Ok (u, s') ->
    count_calls is_update_learning_rate (calls_since (length (calls s)) s')
    = if done s' then count_calls is_sample (calls_since (length (calls s)) s') else O.
Proof.
  intros s s' u H. apply step_iteration_anatomy in H.
  destruct H as (a & session & k & Hcalls & Hsess & _).
  rewrite (calls_since_app _ _ _ _ Hcalls).
  change (CallConductAction a :: session ++ [CallSaveExperience _])
    with ([CallConductAction a] ++ session ++ [CallSaveExperience
            {| t_state := state s; t_action := a; t_reward := reward s';
               t_next_state := state s'; t_done := done s' |}]).
  rewrite !count_calls_app.
  destruct (count_session_calls _ _ _ _ Hsess) as (Hsamp & _).
  destruct (session_calls_other_counts _ _ _ _ Hsess) as (_ & _ & Hlr).
  rewrite Hsamp, Hlr. destruct (done s'); cbn; lia.
Qed.

(** ** A whole episode *)

Lemma step_run (fuel : nat) : forall s s' u,
  step fuel s = Some (Ok (u, s')) ->
  done s' = true /\
  episode_number s' = (episode_number s + 1)%Z /\
  hyperparameters s' = hyperparameters s /\
  exists new,
    calls s' = calls s ++ new /\
    (done s = true -> new = []) /\
    global_step_number s'
    = (global_step_number s + Z.of_nat (count_calls is_conduct_action new))%Z /\
    count_calls is_save_experience new = count_calls is_conduct_action new /\
    count_calls (is_optimisation_step CriticOptimizer) new = count_calls is_sample new /\
    count_calls (is_optimisation_step ActorOptimizer) new = count_calls is_sample new /\
    (count_calls is_update_learning_rate new
     <= Z.to_nat (learning_updates_per_learning_session (hyperparameters s)))%nat.
Proof.
  induction fuel as [|fuel IH]; intros s s' u H; cbn [step] in H.
  - destruct (done s) eqn:Hd; [|discriminate].
    inversion H; subst. cbn. rewrite Hd.
    repeat split; try reflexivity. exists []. rewrite app_nil_r.
    repeat split; try reflexivity; cbn; lia.
  - destruct (done s) eqn:Hd.
    + inversion H; subst. cbn. rewrite Hd.
      repeat split; try reflexivity. exists []. rewrite app_nil_r.
      repeat split; try reflexivity; cbn; lia.
    + destruct (step_iteration s) as [[u1 s1]|e] eqn:H1; [|discriminate].
      apply step_iteration_anatomy in H1.
      destruct H1 as (a & session & k & Hcalls & Hsess & _ & Hk & _ & _ & _ & _ & Hg & He & Hh & _).
      apply IH in H. destruct H as (Hdone & Hep & Hhyp & rest & Hrest & Hnil & Hgsn & Hsave & Hc & Ha & Hlr).
      split; [exact Hdone|]. split; [lia|]. split; [congruence|].
      destruct (count_session_calls _ _ _ _ Hsess) as (S1 & S2 & S3).
      destruct (session_calls_other_counts _ _ _ _ Hsess) as (O1 & O2 & O3).
      eexists. split; [rewrite Hrest, Hcalls, <- app_assoc; reflexivity|].
      split; [discriminate|].
      change (CallConductAction a :: session ++ ?l) with ([CallConductAction a] ++ session ++ l).
      rewrite !count_calls_app, S1, S2, S3, O1, O2, O3. cbn.
      rewrite Hh in Hlr.
      split; [lia|]. split; [lia|]. split; [lia|]. split; [lia|].
      destruct (done s1) eqn:Hd1.
      * rewrite (Hnil eq_refl). cbn. lia.
      * lia.
Qed.

(** X6: when [step] returns, the episode has ended and the episode number
    has grown by one; the global step number has grown by the number of
    actions conducted, every one of which was followed by storing a
    transition; the critic and the actor were stepped once for each batch
    sampled; the hyperparameters are as before. *)
Theorem episode_bookkeeping :
  forall (fuel : nat) s s' u,
    step fuel s = Some (Ok (u, s')) ->
    done s' = true /\
    episode_number s' = (episode_number s + 1)%Z /\
    hyperparameters s' = hyperparameters s /\
    global_step_number s'
    = (global_step_number s
       + Z.of_nat (count_calls is_conduct_action (calls_since (length (calls s)) s')))%Z /\
    count_calls is_save_experience (calls_since (length (calls s)) s')
    = count_calls is_conduct_action (calls_since (length (calls s)) s') /\
    count_calls (is_optimisation_step CriticOptimizer) (calls_since (length (calls s)) s')
    = count_calls is_sample (calls_since (length (calls s)) s') /\
    count_calls (is_optimisation_step ActorOptimizer) (calls_since (length (calls s)) s')
    = count_calls is_sample (calls_since (length (calls s)) s').
Proof.
  intros fuel s s' u H. apply step_run in H.
  destruct H as (Hd & He & Hh & new & Hcalls & _ & Hg & Hs & Hc & Ha & _).
  rewrite (calls_since_app _ _ _ _ Hcalls). repeat split; assumption.
Qed.

(** X8: over a whole episode the learning rate is written at most
    [learning_updates_per_learning_session] times (range semantics), and an
    episode that is over before [step] is called writes it not at all. *)
Theorem learning_rate_writes_per_episode :
  forall (fuel : nat) s s' u,
    step fuel s = Some (Ok (u, s')) ->
    (count_calls is_update_learning_rate (calls_since (length (calls s)) s')
     <= Z.to_nat (learning_updates_per_learning_session (hyperparameters s)))%nat /\
    (done s = true -> calls s' = calls s).
Proof.
  intros fuel s s' u H. apply step_run in H.
  destruct H as (_ & _ & _ & new & Hcalls & Hnil & _ & _ & _ & _ & Hlr).
  rewrite (calls_since_app _ _ _ _ Hcalls). split; [exact Hlr|].
  intros Hd. rewrite Hcalls, (Hnil Hd), app_nil_r. reflexivity.
Qed.

(** ** Which errors the control loop can end in *)

Lemma sample_experiences_error s e :
  sample_experiences s = Raise e -> e = InsufficientDataError.
Proof.
  unfold sample_experiences, sample.
  destruct (Z.ltb (buffer_len (memory s)) (rb_batch_size (memory s))).
  - intros H; inversion H; reflexivity.
  - destruct (random_sample C _ _ _). discriminate.
Qed.

Lemma learning_update_shape_only s e :
  (rb_batch_size (memory s) <= buffer_len (memory s))%Z ->
  learning_update s = Raise e -> e = ShapeMismatchError.
Proof.
  intros Hle H. pose proof (learning_update_errors _ s Hle) as Hno.
  revert H Hno. unfold learning_update, bind.
  destruct (sample_experiences s) as [[b s1]|e1] eqn:Hs.
  - destruct (critic_learn _ _ _ _ _ s1) as [[u1 s2]|e2] eqn:Hc.
    + intros Ha _. eapply actor_learn_errors; exact Ha.
    + intros H _. inversion H; subst. eapply critic_learn_errors; exact Hc.
  - intros H Hno. inversion H; subst.
    apply sample_experiences_error in Hs. subst. contradiction.
Qed.

Lemma for_range_shape_only (n : nat) : forall s e,
  (rb_batch_size (memory s) <= buffer_len (memory s))%Z ->
  for_range n learning_update s = Raise e -> e = ShapeMismatchError.
Proof.
  induction n as [|n IH]; intros s e Hle; [discriminate|].
  cbn [for_range]. unfold bind.
  destruct (learning_update s) as [[u1 s1]|e1] eqn:H1.
  - apply learning_update_effect in H1.
    destruct H1 as (b & m & y & vgc & vga & _ & _ & _ & [_ _ _ Fc Fb] & _).
    apply IH. unfold buffer_len in *. rewrite Fc, Fb. exact Hle.
  - intros H; inversion H; subst.
    eapply learning_update_shape_only; eassumption.
Qed.

Lemma step_iteration_shape_only s e :
  memory_consistent s ->
  update_every_n_steps (hyperparameters s) <> 0%Z ->
  step_iteration s = Raise e -> e = ShapeMismatchError.
Proof.
  intros Hcons Hn. unfold step_iteration, bind.
  destruct (pick_action s) as [[a s1]|e1] eqn:Hp.
  2:{ intros H; inversion H; subst. eapply pick_action_errors; exact Hp. }
  destruct (pick_action_inv _ _ _ _ Hp) as (n & ->).
  unfold conduct_action, save_experience, modify.
  change (acted a (set_action (set_exploration_strategy s n) a)) with (arrived a n s).
  destruct (arrived_effect a n s) as (_ & _ & Hm & Hh & _).
  destruct (time_for_critic_and_actor_to_learn (arrived a n s)) as [[t sc']|e1] eqn:Ht.
  - destruct (time_to_learn_inv _ _ _ _ Ht) as (-> & _ & Htrig).
    destruct t; [|discriminate].
    destruct (learning_session (arrived a n s)) as [[u1 sl]|e2] eqn:Hl; [discriminate|].
    intros H; inversion H; subst.
    revert Hl. unfold learning_session, bind, get. apply for_range_shape_only.
    rewrite Hm. unfold memory_consistent in Hcons. rewrite Hcons, <- Hh, <- Hm.
    apply Htrig; reflexivity.
  - intros H; inversion H; subst. revert Ht.
    unfold time_for_critic_and_actor_to_learn, bind, get, lift, ret, py_mod.
    destruct (enough_experiences_to_learn_from (arrived a n s)); [|discriminate].
    rewrite Hh.
    destruct (Z.eqb (update_every_n_steps (hyperparameters s)) 0) eqn:Hz; [|discriminate].
    apply Z.eqb_eq in Hz. contradiction.
Qed.

(** X9: with the replay buffer built on the hyperparameters' batch size and
    a non-zero [update_every_n_steps], the only error [step] can end in is
    a shape error. *)
Theorem step_fails_only_on_shapes :
  forall s,
    memory_consistent s ->
    update_every_n_steps (hyperparameters s) <> 0%Z ->
    forall (fuel : nat),
      step fuel s = None \/
      (exists s', step fuel s = Some (Ok (tt, s'))) \/
      step fuel s = Some (Raise ShapeMismatchError).
Proof.
  intros s Hcons Hn fuel. revert s Hcons Hn.
  induction fuel as [|fuel IH]; intros s Hcons Hn; cbn [step].
  - destruct (done s); [right; left; eexists; reflexivity | left; reflexivity].
  - destruct (done s); [right; left; eexists; reflexivity|].
    destruct (step_iteration s) as [[u s1]|e] eqn:H1.
    + apply IH.
      * eapply step_iteration_consistent; eassumption.
      * apply step_iteration_anatomy in H1.
        destruct H1 as (a & session & k & _ & _ & _ & _ & _ & _ & _ & _ & _ & _ & Hh & _).
        rewrite Hh. exact Hn.
    + right; right. f_equal. f_equal.
      eapply step_iteration_shape_only; eassumption.
Qed.

(** ** Warm-up *)

Lemma buffer_len_add_experience (m : Replay_Buffer (Rng C)) (t : Transition) :
  (buffer_len (add_experience m t) <= buffer_len m + 1)%Z.
Proof.
  unfold buffer_len, add_experience; cbn.
  rewrite length_skipn, length_app. cbn. lia.
Qed.

(** X10: as long as the buffer cannot reach [batch_size] transitions within
    the iterations made, an episode changes none of the networks and
    neither optimiser: no learning happens before [batch_size] transitions
    have been stored. *)
Theorem no_learning_before_batch_size :
  forall (fuel : nat) s s' u,
    (buffer_len (memory s) + Z.of_nat fuel <= batch_size (hyperparameters s))%Z ->
    step fuel s = Some (Ok (u, s')) ->
    same_networks s s' /\
    count_calls is_sample (calls_since (length (calls s)) s') = O.
Proof.
  intros fuel s s' u Hroom H.
  assert (G : same_networks s s' /\
              exists new, calls s' = calls s ++ new /\ count_calls is_sample new = O).
  { revert s Hroom H. induction fuel as [|fuel IH]; intros s Hroom H; cbn [step] in H.
    - destruct (done s); [|discriminate]. inversion H; subst.
      split; [split; reflexivity|]. exists []. cbn. rewrite app_nil_r. split; reflexivity.
    - destruct (done s).
      + inversion H; subst.
        split; [split; reflexivity|]. exists []. cbn. rewrite app_nil_r. split; reflexivity.
      + destruct (step_iteration s) as [[u1 s1]|e] eqn:H1; [|discriminate].
        apply step_iteration_anatomy in H1.
        destruct H1 as (a & session & k & Hcalls & Hsess & Hnet & _ & Hno & _ & _ & _ & _ & _
                        & Hh & Hc).
        assert (Hk : k = O).
        { apply Hno. unfold time_to_learn. intros (Hge & _). lia. }
        subst k. inversion Hsess; subst.
        assert (Hlen : (buffer_len (memory s1) <= buffer_len (memory s) + 1)%Z).
        { unfold buffer_len at 1. rewrite Hc. apply buffer_len_add_experience. }
        destruct (IH s1) as (N & rest & Hrest & Hcount).
        * rewrite Hh. lia.
        * exact H.
        * split; [eapply same_networks_trans; [apply Hnet; reflexivity | exact N]|].
          eexists. split; [rewrite Hrest, Hcalls, <- app_assoc; reflexivity|].
          cbn [app]. unfold count_calls in *. cbn. exact Hcount. }
  destruct G as (N & new & Hcalls & Hcount).
  split; [exact N|]. rewrite (calls_since_app _ _ _ _ Hcalls). exact Hcount.
Qed.

(** ** How critic and actor learning compose *)

Lemma before_actor_grad_networks s :
  critic_local (before_actor_grad s) = critic_local s /\
  critic_target (before_actor_grad s) = critic_target s /\
  actor_local (before_actor_grad s) = actor_local s /\
  actor_target (before_actor_grad s) = actor_target s.
Proof. unfold before_actor_grad. destruct (done s); repeat split; reflexivity. Qed.

(** X11: in one pass through the inner loop the actor's gradient is taken
    in a state that already has the critic weights and the critic target
    produced by the critic step of the same pass, and still has the actor
    weights and actor target from before the pass. *)
Theorem actor_gradient_sees_updated_critic :
  forall s s' u,
    learning_update s = Ok (u, s') ->
    exists (b : Batch) (m : Replay_Buffer (Rng C)) (mid : Agent C)
           (vg : LossValue C * Grads C),
      sample (memory s) = Ok (b, m) /\
      actor_grad_fn mid (states b) = Ok vg /\
      critic_local mid = critic_local s' /\
      critic_target mid = critic_target s' /\
      actor_local mid = actor_local s /\
      actor_target mid = actor_target s /\
      (actor_optimizer s', actor_local s')
      = optimiser_update C (actor_optimizer mid) (actor_local mid) (snd vg)
          (gradient_clipping_norm (Actor (hyperparameters s))).
Proof.
  unfold learning_update, bind. intros s s' u.
  destruct (sample_experiences s) as [[b s1]|e] eqn:Hs; [|discriminate].
  destruct (critic_learn _ _ _ _ _ s1) as [[u1 s2]|e] eqn:Hc; [|discriminate].
  intros Ha.
  apply sample_experiences_inv in Hs. destruct Hs as (m & Hm & ->).
  apply critic_learn_effect in Hc.
  destruct Hc as (y & vgc & _ & _ & _ & [Fh _ _ _ _] & _ & _ & Hal2 & Hat2 & _).
  apply actor_learn_effect in Ha.
  destruct Ha as (vg & Hvg & _ & _ & Hopt & _ & Hcl3 & Hct3 & _).
  destruct (before_actor_grad_networks s2) as (B1 & B2 & B3 & B4).
  cbn in Fh, Hal2, Hat2.
  exists b, m, (before_actor_grad s2), vg.
  split; [exact Hm|]. split; [exact Hvg|].
  split; [congruence|]. split; [congruence|].
  split; [congruence|]. split; [congruence|].
  rewrite B3, <- Fh. exact Hopt.
Qed.

(** X12: a critic learning step writes nothing of the actor, and an actor
    learning step writes nothing of the critic (whose weights it reads);
    neither touches the replay buffer or the episode state. *)
Theorem critic_and_actor_steps_write_their_own_side :
  (forall s s' u (st ac : Matrix) (r : Column) (ns : Matrix) (d : Column),
     critic_learn st ac r ns d s = Ok (u, s') ->
     actor_local s' = actor_local s /\
     actor_target s' = actor_target s /\
     actor_optimizer s' = actor_optimizer s /\
     memory s' = memory s /\
     same_episode s s') /\
  (forall s s' u (st : Matrix),
     actor_learn st s = Ok (u, s') ->
     critic_local s' = critic_local s /\
     critic_target s' = critic_target s /\
     critic_optimizer s' = critic_optimizer s /\
     memory s' = memory s /\
     same_episode s s').
Proof.
  split.
  - intros s s' u st ac r ns d H.
    destruct (critic_learn_episode _ _ _ _ _ _ _ _ _ H) as (E & Hm).
    apply critic_learn_effect in H.
    destruct H as (y & vg & _ & _ & _ & _ & _ & _ & H1 & H2 & H3).
    split; [exact H1|]. split; [exact H2|]. split; [exact H3|]. split; assumption.
  - intros s s' u st H.
    destruct (actor_learn_episode _ _ _ _ _ H) as (E & Hm).
    apply actor_learn_effect in H.
    destruct H as (vg & _ & _ & _ & _ & _ & H1 & H2 & H3).
    split; [exact H1|]. split; [exact H2|]. split; [exact H3|]. split; assumption.
Qed.

End MoreLoop.

(** ** The further facts on the concrete instance *)

(** X2 on the instance: the agent before and after the end of the episode. *)
Lemma targets_and_losses_read_their_own_networks_witness :
  compute_critic_targets Demo.agent0 [[2]; [3]] [1; 2] [0; 1]
  = compute_critic_targets Demo.ended_agent [[2]; [3]] [1; 2] [0; 1] /\
  compute_loss Demo.agent0 [[1]; [2]] [[1]; [1]] [0; 3]
  = compute_loss Demo.ended_agent [[1]; [2]] [[1]; [1]] [0; 3] /\
  calculate_actor_loss Demo.agent0 [[1]; [2]]
  = calculate_actor_loss Demo.ended_agent [[1]; [2]].
Proof.
  destruct (@targets_and_losses_read_their_own_networks Demo.backend
              Demo.agent0 Demo.ended_agent [[1]; [2]] [[1]; [1]] [[2]; [3]]
              [1; 2] [0; 1] [0; 3]) as (H1 & H2 & H3).
  split; [apply H1; reflexivity|].
  split; [apply H2; reflexivity | apply H3; reflexivity].
Defined.

(** X3 on the instance: [update_every_n_steps] is 1 and the buffer holds
    five transitions for a batch size of 2. *)
Lemma trigger_short_circuits_witness :
  exists t,
    time_for_critic_and_actor_to_learn Demo.agent0 = Ok (t, Demo.agent0) /\
    (t = true <->
     (update_every_n_steps (hyperparameters Demo.agent0)
      | global_step_number Demo.agent0)%Z).
Proof.
  destruct (@trigger_short_circuits Demo.backend Demo.agent0) as (_ & _ & H).
  apply H.
  - reflexivity.
  - discriminate.
Defined.

(** X4 on the instance: the first iteration of a fresh agent. *)
Lemma iteration_without_session_leaves_networks_witness :
  same_networks DemoRuns.fresh_agent DemoRuns.after_fresh_iteration /\
  exists (a : list Q) (t : Transition),
    calls_since (length (calls DemoRuns.fresh_agent)) DemoRuns.after_fresh_iteration
    = [CallConductAction a; CallSaveExperience t].
Proof.
  apply (@iteration_without_session_leaves_networks Demo.backend
           DemoRuns.fresh_agent DemoRuns.after_fresh_iteration tt).
  - reflexivity.
  - left. intros [H _]. apply H. reflexivity.
Defined.

(** X5 on the instance. *)
Lemma iteration_stores_then_advances_witness :
  exists (a : list Q) (t : Transition),
    t = {| t_state := state Demo.agent0; t_action := a;
           t_reward := reward Demo.after_iteration;
           t_next_state := state Demo.after_iteration;
           t_done := done Demo.after_iteration |} /\
    hd_error (calls_since (length (calls Demo.agent0)) Demo.after_iteration)
    = Some (CallConductAction a) /\
    last (calls_since (length (calls Demo.agent0)) Demo.after_iteration) (CallConductAction a)
    = CallSaveExperience t /\
    contents (memory Demo.after_iteration) = contents (add_experience (memory Demo.agent0) t) /\
    action Demo.after_iteration = a /\
    state Demo.after_iteration = next_state Demo.after_iteration /\
    global_step_number Demo.after_iteration = (global_step_number Demo.agent0 + 1)%Z /\
    episode_number Demo.after_iteration = episode_number Demo.agent0 /\
    hyperparameters Demo.after_iteration = hyperparameters Demo.agent0.
Proof.
  apply (@iteration_stores_then_advances Demo.backend Demo.agent0 Demo.after_iteration tt).
  reflexivity.
Defined.

(** X6 on the instance: the first episode of a fresh agent. *)
Lemma episode_bookkeeping_witness :
  done DemoRuns.after_episode = true /\
  episode_number DemoRuns.after_episode = (episode_number DemoRuns.fresh_agent + 1)%Z /\
  hyperparameters DemoRuns.after_episode = hyperparameters DemoRuns.fresh_agent /\
  global_step_number DemoRuns.after_episode
  = (global_step_number DemoRuns.fresh_agent
     + Z.of_nat (count_calls is_conduct_action
                   (calls_since (length (calls DemoRuns.fresh_agent))
                                DemoRuns.after_episode)))%Z /\
  count_calls is_save_experience
    (calls_since (length (calls DemoRuns.fresh_agent)) DemoRuns.after_episode)
  = count_calls is_conduct_action
      (calls_since (length (calls DemoRuns.fresh_agent)) DemoRuns.after_episode) /\
  count_calls (is_optimisation_step CriticOptimizer)
    (calls_since (length (calls DemoRuns.fresh_agent)) DemoRuns.after_episode)
  = count_calls is_sample
      (calls_since (length (calls DemoRuns.fresh_agent)) DemoRuns.after_episode) /\
  count_calls (is_optimisation_step ActorOptimizer)
    (calls_since (length (calls DemoRuns.fresh_agent)) DemoRuns.after_episode)
  = count_calls is_sample
      (calls_since (length (calls DemoRuns.fresh_agent)) DemoRuns.after_episode).
Proof.
  apply (@episode_bookkeeping Demo.backend 10%nat
           DemoRuns.fresh_agent DemoRuns.after_episode tt).
  reflexivity.
Defined.

(** X7 on the instance. *)
Lemma learning_rate_written_per_update_at_episode_end_witness :
  count_calls is_update_learning_rate
    (calls_since (length (calls Demo.agent0)) Demo.after_iteration)
  = if done Demo.after_iteration
    then count_calls is_sample
           (calls_since (length (calls Demo.agent0)) Demo.after_iteration)
    else O.
Proof.
  apply (@learning_rate_written_per_update_at_episode_end Demo.backend
           Demo.agent0 Demo.after_iteration tt).
  reflexivity.
Defined.

(** X8 on the instance. *)
Lemma learning_rate_writes_per_episode_witness :
  (count_calls is_update_learning_rate
     (calls_since (length (calls DemoRuns.fresh_agent)) DemoRuns.after_episode)
   <= Z.to_nat (learning_updates_per_learning_session
                  (hyperparameters DemoRuns.fresh_agent)))%nat /\
  (done DemoRuns.fresh_agent = true ->
   calls DemoRuns.after_episode = calls DemoRuns.fresh_agent).
Proof.
  apply (@learning_rate_writes_per_episode Demo.backend 10%nat
           DemoRuns.fresh_agent DemoRuns.after_episode tt).
  reflexivity.
Defined.

(** X9 on the instance, for one iteration. *)
Lemma step_fails_only_on_shapes_witness :
  step 1 Demo.agent0 = None \/
  (exists s', step 1 Demo.agent0 = Some (Ok (tt, s'))) \/
  step 1 Demo.agent0 = Some (Raise ShapeMismatchError).
Proof.
  apply (@step_fails_only_on_shapes Demo.backend Demo.agent0).
  - reflexivity.
  - discriminate.
Defined.

(** X10 on the instance: batch size 5, an episode of three steps. *)
Lemma no_learning_before_batch_size_witness :
  same_networks DemoRuns.patient_agent DemoRuns.after_patient_episode /\
  count_calls is_sample
    (calls_since (length (calls DemoRuns.patient_agent)) DemoRuns.after_patient_episode) = O.
Proof.
  apply (@no_learning_before_batch_size Demo.backend 3%nat
           DemoRuns.patient_agent DemoRuns.after_patient_episode tt).
  - vm_compute. discriminate.
  - reflexivity.
Defined.

(** X11 on the instance. *)
Lemma actor_gradient_sees_updated_critic_witness :
  exists (b : Batch) (m : Replay_Buffer nat) (mid : Agent Demo.backend)
         (vg : Demo.F32 * list Demo.F32),
    sample (memory Demo.agent0) = Ok (b, m) /\
    actor_grad_fn mid (states b) = Ok vg /\
    critic_local mid = critic_local Demo.after_update /\
    critic_target mid = critic_target Demo.after_update /\
    actor_local mid = actor_local Demo.agent0 /\
    actor_target mid = actor_target Demo.agent0 /\
    (actor_optimizer Demo.after_update, actor_local Demo.after_update)
    = Demo.guarded_descent (actor_optimizer mid) (actor_local mid) (snd vg)
        (gradient_clipping_norm (Actor (hyperparameters Demo.agent0))).
Proof.
  apply (@actor_gradient_sees_updated_critic Demo.backend Demo.agent0 Demo.after_update tt).
  reflexivity.
Defined.

(** X12 on the instance. *)
Lemma critic_and_actor_steps_write_their_own_side_witness :
  (actor_local DemoRuns.after_critic = actor_local Demo.agent0 /\
   actor_target DemoRuns.after_critic = actor_target Demo.agent0 /\
   actor_optimizer DemoRuns.after_critic = actor_optimizer Demo.agent0 /\
   memory DemoRuns.after_critic = memory Demo.agent0 /\
   same_episode Demo.agent0 DemoRuns.after_critic) /\
  (critic_local Demo.after_actor_learn = critic_local Demo.ended_agent /\
   critic_target Demo.after_actor_learn = critic_target Demo.ended_agent /\
   critic_optimizer Demo.after_actor_learn = critic_optimizer Demo.ended_agent /\
   memory Demo.after_actor_learn = memory Demo.ended_agent /\
   same_episode Demo.ended_agent Demo.after_actor_learn).
Proof.
  destruct (@critic_and_actor_steps_write_their_own_side Demo.backend) as [Hc Ha].
  split.
  - apply (Hc Demo.agent0 DemoRuns.after_critic tt
              [[1]; [2]] [[1]; [1]] [1; 2] [[2]; [3]] [0; 0]).
    reflexivity.
  - apply (Ha Demo.ended_agent Demo.after_actor_learn tt [[1]; [2]]).
    reflexivity.
Defined.

(** * The critic targets in float32 arithmetic *)

Module F32Facts.

Lemma zip_with32_length (f : F32.float32 -> F32.float32 -> F32.float32)
    (xs ys : F32.Column32) :
  length xs = length ys -> length (F32.zip_with f xs ys) = length xs.
Proof.
  revert ys; induction xs as [|x xs IH]; intros [|y ys] H; simpl in *; try congruence.
  f_equal; apply IH; congruence.
Qed.

Lemma zip_with32_nth (f : F32.float32 -> F32.float32 -> F32.float32)
    (xs ys : F32.Column32) (i : nat) (d : F32.float32) :
  length xs = length ys -> (i < length xs)%nat ->
  nth i (F32.zip_with f xs ys) d = f (nth i xs d) (nth i ys d).
Proof.
  revert ys i; induction xs as [|x xs IH]; intros [|y ys] i H Hi; simpl in *;
    try congruence; try lia.
  destruct i as [|i]; [reflexivity|].
  apply IH; [congruence | lia].
Qed.

Lemma broadcast32_same_length (f : F32.float32 -> F32.float32 -> F32.float32)
    (xs ys : F32.Column32) :
  length xs = length ys -> F32.broadcast f xs ys = Ok (F32.zip_with f xs ys).
Proof.
  intros H; unfold F32.broadcast.
  rewrite (proj2 (Nat.eqb_eq _ _) H); reflexivity.
Qed.

Lemma nth_map32 (g : F32.float32 -> F32.float32) (t : F32.Column32) (i : nat)
    (d : F32.float32) :
  (i < length t)%nat -> nth i (map g t) d = g (nth i t d).
Proof.
  intros Hi. rewrite (nth_indep _ d (g d)) by (rewrite length_map; exact Hi).
  apply map_nth.
Qed.

(** 1.0 - 1.0 is +0. *)
Lemma one_minus_one : F32.sub F32.one F32.one = SpecFloat.S754_zero false.
Proof. reflexivity. Qed.

(** A finite value times +0 is a zero. *)
Lemma finite_times_zero (p : F32.float32) :
  F32.is_finite p = true ->
  exists s, F32.mul p (SpecFloat.S754_zero false) = SpecFloat.S754_zero s.
Proof.
  destruct p as [s|s| |s m e]; simpl; intros H; try discriminate; eexists; reflexivity.
Qed.

Lemma eqb_refl (r : F32.float32) : F32.is_nan r = false -> F32.eqb r r = true.
Proof.
  destruct r as [s|s| |s m e]; simpl; intros H; try discriminate.
  - reflexivity.
  - destruct s; reflexivity.
  - unfold F32.eqb, SpecFloat.SFeqb, SpecFloat.SFcompare.
    rewrite Z.compare_refl, Pos.compare_cont_refl. destruct s; reflexivity.
Qed.

(** Adding a zero of either sign to a value that is not not-a-number gives
    a value equal to it, and the very same value unless it is a zero. *)
Lemma plus_zero (r : F32.float32) (s : bool) :
  F32.is_nan r = false ->
  F32.eqb (F32.add r (SpecFloat.S754_zero s)) r = true /\
  (F32.is_zero r = false -> F32.add r (SpecFloat.S754_zero s) = r).
Proof.
  intros Hnan. split.
  - destruct r as [s'|s'| |s' m e]; try discriminate.
    + destruct s', s; reflexivity.
    + apply (eqb_refl (SpecFloat.S754_infinity s')). reflexivity.
    + apply (eqb_refl (SpecFloat.S754_finite s' m e)). reflexivity.
  - destruct r as [s'|s'| |s' m e]; try discriminate; intros _; reflexivity.
Qed.

Section Targets.

Variable actor_target : F32.Matrix32 -> option F32.Matrix32.
Variable critic_target : F32.Matrix32 -> option F32.Column32.
Variable discount_rate : F32.float32.

(** C1, as the code has it: entry by entry the critic target is
    rewards + gamma * q_next * (1 - dones) in float32 arithmetic, where
    q_next is the target critic on the next states joined with the target
    actor's actions.  For an entry whose done flag is 1.0, whose discounted
    next value gamma * q_next is finite and whose reward is not
    not-a-number, the target equals the reward, and is the very same
    float32 value unless the reward is a zero. *)
Theorem critic_target_formula_float32 :
  forall (next_states actions_next x : F32.Matrix32) (rewards dones q_next : F32.Column32),
    actor_target next_states = Some actions_next ->
    F32.cat_axis1 next_states actions_next = Ok x ->
    critic_target x = Some q_next ->
    length rewards = length q_next ->
    length dones = length q_next ->
    exists y,
      F32.compute_critic_targets actor_target critic_target discount_rate
        next_states rewards dones = Ok y /\
      length y = length rewards /\
      (forall i, (i < length y)%nat ->
         nth i y F32.nan
         = F32.add (nth i rewards F32.nan)
             (F32.mul (F32.mul discount_rate (nth i q_next F32.nan))
                      (F32.sub F32.one (nth i dones F32.nan)))) /\
      (forall i, (i < length y)%nat ->
         nth i dones F32.nan = F32.one ->
         F32.is_finite (F32.mul discount_rate (nth i q_next F32.nan)) = true ->
         F32.is_nan (nth i rewards F32.nan) = false ->
         F32.eqb (nth i y F32.nan) (nth i rewards F32.nan) = true /\
         (F32.is_zero (nth i rewards F32.nan) = false ->
          nth i y F32.nan = nth i rewards F32.nan)).
Proof.
  intros next_states actions_next x rewards dones q_next Ha Hx Hq Hr Hd.
  set (future := F32.zip_with F32.mul (F32.scale discount_rate q_next)
                   (F32.rsub F32.one dones)).
  assert (Hlf : length future = length rewards).
  { unfold future. rewrite zip_with32_length; unfold F32.scale, F32.rsub;
      rewrite !length_map; congruence. }
  exists (F32.zip_with F32.add rewards future).
  assert (Hlen : length (F32.zip_with F32.add rewards future) = length rewards)
    by (apply zip_with32_length; congruence).
  assert (Hentry : forall i, (i < length rewards)%nat ->
    nth i (F32.zip_with F32.add rewards future) F32.nan
    = F32.add (nth i rewards F32.nan)
        (F32.mul (F32.mul discount_rate (nth i q_next F32.nan))
                 (F32.sub F32.one (nth i dones F32.nan)))).
  { intros i Hi.
    rewrite zip_with32_nth by (congruence || exact Hi).
    unfold future. rewrite zip_with32_nth.
    - unfold F32.scale, F32.rsub. rewrite !nth_map32 by lia. reflexivity.
    - unfold F32.scale, F32.rsub. rewrite !length_map. congruence.
    - unfold F32.scale. rewrite length_map. lia. }
  split.
  { unfold F32.compute_critic_targets, F32.compute_critic_values_for_next_states,
      F32.compute_critic_values_for_current_states.
    rewrite Ha; cbn [rbind forward]. rewrite Hx; cbn [rbind]. rewrite Hq; cbn [rbind forward].
    rewrite broadcast32_same_length
      by (unfold F32.scale, F32.rsub; rewrite !length_map; congruence).
    cbn [rbind]. apply broadcast32_same_length. fold future. congruence. }
  split; [exact Hlen|]. split.
  - intros i Hi. apply Hentry. rewrite <- Hlen. exact Hi.
  - intros i Hi Hdone Hfin Hnan.
    rewrite Hentry by (rewrite <- Hlen; exact Hi).
    rewrite Hdone, one_minus_one.
    destruct (finite_times_zero _ Hfin) as (s & ->).
    apply plus_zero. exact Hnan.
Qed.

End Targets.

End F32Facts.

(** C1 on float32 values: two next states, rewards 5.0, the second
    transition terminal, a target critic that answers 2.0. *)
Lemma critic_target_formula_float32_witness :
  exists y,
    F32.compute_critic_targets F32.constant_actor (F32.constant_critic F32.two)
      F32.nine_tenths [[F32.one]; [F32.two]] [F32.five; F32.five]
      [SpecFloat.S754_zero false; F32.one] = Ok y /\
    length y = length [F32.five; F32.five] /\
    (forall i, (i < length y)%nat ->
       nth i y F32.nan
       = F32.add (nth i [F32.five; F32.five] F32.nan)
           (F32.mul (F32.mul F32.nine_tenths (nth i [F32.two; F32.two] F32.nan))
                    (F32.sub F32.one (nth i [SpecFloat.S754_zero false; F32.one] F32.nan)))) /\
    (forall i, (i < length y)%nat ->
       nth i [SpecFloat.S754_zero false; F32.one] F32.nan = F32.one ->
       F32.is_finite (F32.mul F32.nine_tenths (nth i [F32.two; F32.two] F32.nan)) = true ->
       F32.is_nan (nth i [F32.five; F32.five] F32.nan) = false ->
       F32.eqb (nth i y F32.nan) (nth i [F32.five; F32.five] F32.nan) = true /\
       (F32.is_zero (nth i [F32.five; F32.five] F32.nan) = false ->
        nth i y F32.nan = nth i [F32.five; F32.five] F32.nan)).
Proof.
  apply (@F32Facts.critic_target_formula_float32
           F32.constant_actor (F32.constant_critic F32.two) F32.nine_tenths
           [[F32.one]; [F32.two]] [[F32.one]; [F32.one]]
           [[F32.one; F32.one]; [F32.two; F32.one]]
           [F32.five; F32.five] [SpecFloat.S754_zero false; F32.one] [F32.two; F32.two]);
    reflexivity.
Defined.

(** C1 as stated fails: for a terminal transition with reward 5.0 whose
    next-state critic value is infinite, the target is not-a-number, which
    is not equal to the reward. *)
Lemma terminal_target_with_infinite_next_value :
  F32.compute_critic_values_for_current_states F32.nine_tenths
    [F32.five] [F32.infinity] [F32.one] = Ok [F32.nan] /\
  F32.compute_critic_targets F32.constant_actor (F32.constant_critic F32.infinity)
    F32.nine_tenths [[F32.one]] [F32.five] [F32.one] = Ok [F32.nan] /\
  F32.eqb F32.nan F32.five = false.
Proof. repeat split; reflexivity. Qed.

(** * Sessions and their batches, construction, and a failing critic step *)

Section Sampled.

Variable C : Collaborators.
Implicit Types s : Agent C.

Lemma learning_update_memory s s' u :
  learning_update s = Ok (u, s') ->
  exists (b : Batch) (m : Replay_Buffer (Rng C)),
    sample (memory s) = Ok (b, m) /\ memory s' = m.
Proof.
  unfold learning_update, bind.
  destruct (sample_experiences s) as [[b s1]|e] eqn:Hs; [|discriminate].
  destruct (critic_learn _ _ _ _ _ s1) as [[u1 s2]|e] eqn:Hc; [|discriminate].
  intros Ha.
  apply sample_experiences_inv in Hs. destruct Hs as (m & Hm & ->).
  apply critic_learn_episode in Hc. destruct Hc as (_ & Hm2).
  apply actor_learn_episode in Ha. destruct Ha as (_ & Hm3).
  exists b, m. split; [exact Hm|]. rewrite Hm3, Hm2. reflexivity.
Qed.

Lemma for_range_sampled (n : nat) : forall s s' u,
  for_range n learning_update s = Ok (u, s') ->
  exists new,
    calls s' = calls s ++ new /\
    sampled_session (hyperparameters s) (done s) (memory s) n new (memory s') /\
    session_calls (hyperparameters s) (done s) n new /\
    same_frame s s'.
Proof.
  induction n as [|n IH]; intros s s' u H.
  - inversion H; subst. exists []. rewrite app_nil_r.
    split; [reflexivity|]. split; [constructor|]. split; [constructor|].
    split; reflexivity.
  - cbn [for_range] in H. unfold bind in H.
    destruct (learning_update s) as [[u1 s1]|e] eqn:H1; [|discriminate].
    destruct (learning_update_memory _ _ _ H1) as (b0 & m0 & Hm0 & Hmem).
    apply learning_update_effect in H1.
    destruct H1 as (b & m & y & vgc & vga & Hm & _ & Hcalls & F1 & _).
    rewrite Hm in Hm0. injection Hm0 as Hb0 Hm0.
    apply IH in H. destruct H as (rest & Hrest & Hsamp & Hsess & F2).
    pose proof F1 as [Fh Fd _ _ _].
    exists (update_calls (hyperparameters s) (done s) b y ++ rest).
    split; [rewrite Hrest, Hcalls, app_assoc; reflexivity|].
    rewrite Fh, Fd in Hsamp, Hsess. rewrite Hmem, <- Hm0 in Hsamp.
    split; [econstructor; [exact Hm | exact Hsamp]|].
    split; [constructor; exact Hsess|].
    eapply same_frame_trans; eassumption.
Qed.

(** C3: an iteration of the control loop that completes has run a learning
    session exactly when the buffer held at least [batch_size] transitions
    and the global step number was a multiple of [update_every_n_steps].
    The session then consists of [learning_updates_per_learning_session]
    passes of critic then actor; the batch of each pass is the one the
    replay buffer's [sample] returns, called anew in that pass on the
    buffer of the start of the iteration as the previous call left it.
    The transition of the iteration is stored after the session. *)
Theorem learning_trigger_and_repetitions :
  forall s s' u,
    step_iteration s = Ok (u, s') ->
    exists (a : list Q) (t : Transition) (session : list Call)
           (m_end : Replay_Buffer (Rng C)),
      calls_since (length (calls s)) s'
      = CallConductAction a :: session ++ [CallSaveExperience t] /\
      memory s' = add_experience m_end t /\
      (((batch_size (hyperparameters s) <= buffer_len (memory s))%Z /\
        (global_step_number s mod update_every_n_steps (hyperparameters s) = 0)%Z) /\
       sampled_session (hyperparameters s) (done s') (memory s)
         (Z.to_nat (learning_updates_per_learning_session (hyperparameters s)))
         session m_end /\
       session_calls (hyperparameters s) (done s')
         (Z.to_nat (learning_updates_per_learning_session (hyperparameters s))) session /\
       count_calls is_sample session
       = Z.to_nat (learning_updates_per_learning_session (hyperparameters s)) /\
       count_calls (is_optimisation_step CriticOptimizer) session
       = Z.to_nat (learning_updates_per_learning_session (hyperparameters s)) /\
       count_calls (is_optimisation_step ActorOptimizer) session
       = Z.to_nat (learning_updates_per_learning_session (hyperparameters s))
       \/
       ~ ((batch_size (hyperparameters s) <= buffer_len (memory s))%Z /\
          (global_step_number s mod update_every_n_steps (hyperparameters s) = 0)%Z) /\
       session = [] /\ m_end = memory s).
Proof.
  intros s s' u H. apply step_iteration_inv in H.
  destruct H as (a & n & t & sl & _ & Ht & Hl & ->).
  destruct (arrived_effect _ a n s) as (Hcalls & _ & Hm & Hh & Hg & _).
  destruct (time_to_learn_inv _ _ _ _ Ht) as (_ & _ & Htrig).
  rewrite Hh, Hm, Hg in Htrig.
  exists a, (current_transition sl).
  destruct t.
  - revert Hl. unfold learning_session, bind, get. intros Hl.
    apply for_range_sampled in Hl.
    destruct Hl as (new & Hnew & Hsamp & Hsess & [Fh Fd _ _ _]).
    rewrite Hh, Hm in Hsamp. rewrite Hh in Hsess.
    exists new, (memory sl).
    split.
    { apply calls_since_app. unfold advanced, saved, record_call. cbn.
      rewrite Hnew, Hcalls, <- !app_assoc. reflexivity. }
    split; [reflexivity|].
    left. split; [apply Htrig; reflexivity|].
    change (done (advanced (saved sl))) with (done sl). rewrite Fd.
    split; [exact Hsamp|]. split; [exact Hsess|].
    apply count_session_calls in Hsess. exact Hsess.
  - subst sl. exists [], (memory s).
    split.
    { apply calls_since_app. unfold advanced, saved, record_call. cbn.
      rewrite Hcalls, <- !app_assoc. reflexivity. }
    split.
    { unfold advanced, saved, record_call. cbn. rewrite Hm. reflexivity. }
    right. split; [|split; reflexivity].
    intros Hc. apply Htrig in Hc. discriminate.
Qed.

(** C9: the constructor builds the local critic, then the target critic,
    copies the local onto the target, and does the same for the actor: when
    networks of one architecture have the same number of parameters, the
    local networks are exactly what [create_NN] returned for them (the
    first and the third network built) and each target holds the
    parameters of its local network, before any call has been made. *)
Theorem targets_start_equal_to_locals :
  forall config : Config C,
    (forall (i i' : Init C) (a b : Z) (k : Key),
       length (fst (create_NN C i a b k)) = length (fst (create_NN C i' a b k))) ->
    let critic_dim := (state_size config + action_size config)%Z in
    let first := create_NN C (cfg_init config) critic_dim 1 CriticKey in
    let second := create_NN C (snd first) critic_dim 1 CriticKey in
    let third := create_NN C (snd second) (state_size config) (action_size config) ActorKey in
    critic_local (DDPG_init config) = fst first /\
    critic_target (DDPG_init config) = fst first /\
    actor_local (DDPG_init config) = fst third /\
    actor_target (DDPG_init config) = fst third /\
    critic_target (DDPG_init config) = critic_local (DDPG_init config) /\
    actor_target (DDPG_init config) = actor_local (DDPG_init config) /\
    calls (DDPG_init config) = [].
Proof.
  intros config Hshape. cbv zeta. unfold DDPG_init.
  destruct (create_NN C (cfg_init config) (state_size config + action_size config) 1 CriticKey)
    as [cl i1] eqn:E1.
  cbn [fst snd].
  destruct (create_NN C i1 (state_size config + action_size config) 1 CriticKey)
    as [ct i2] eqn:E2.
  cbn [fst snd].
  destruct (create_NN C i2 (state_size config) (action_size config) ActorKey)
    as [al i3] eqn:E3.
  destruct (create_NN C i3 (state_size config) (action_size config) ActorKey)
    as [at_ i4] eqn:E4.
  cbn. unfold copy_model_over.
  assert (Hc : map_onto (fun l _ : Q => l) cl ct = cl).
  { apply map_onto_copy.
    change cl with (fst (cl, i1)). change ct with (fst (ct, i2)).
    rewrite <- E1, <- E2. apply Hshape. }
  assert (Ha : map_onto (fun l _ : Q => l) al at_ = al).
  { apply map_onto_copy.
    change al with (fst (al, i3)). change at_ with (fst (at_, i4)).
    rewrite <- E3, <- E4. apply Hshape. }
  rewrite Hc, Ha. repeat split; reflexivity.
Qed.

(** The two embeddings of [critic_learn] agree on what the call does. *)
Lemma critic_learn_leaving_agrees (st ac : Matrix) (r : Column) (ns : Matrix) (d : Column) s :
  critic_learn st ac r ns d s
  = match critic_learn_leaving st ac r ns d s with
    | (Ok a, s') => Ok (a, s')
    | (Raise e, _) => Raise e
    end.
Proof.
  unfold critic_learn, critic_learn_leaving, take_optimisation_step, soft_update,
    bind, get, lift, modify, bind_leaving, get_leaving, lift_leaving, modify_leaving.
  destruct (compute_critic_targets s ns r d) as [y|e]; [|reflexivity].
  destruct (critic_grad_fn s st ac y) as [vg|e]; reflexivity.
Qed.

(** X13: a batch whose states and actions do not have the same number of
    rows makes the critic learning step raise a shape error once the
    targets have been computed, and the agent it leaves is the agent it
    was given: no call has been logged, no optimisation step taken and no
    soft update made. *)
Theorem critic_learn_rejects_mismatched_batch :
  forall s (st ac : Matrix) (r : Column) (ns : Matrix) (d y : Column),
    compute_critic_targets s ns r d = Ok y ->
    length st <> length ac ->
    critic_learn_leaving st ac r ns d s = (Raise ShapeMismatchError, s) /\
    critic_learn st ac r ns d s = Raise ShapeMismatchError.
Proof.
  intros s st ac r ns d y Hy Hlen.
  assert (Hg : critic_grad_fn s st ac y = Raise ShapeMismatchError).
  { unfold critic_grad_fn, value_and_grad, compute_loss, compute_expected_critic_values,
      Tensor.cat_axis1.
    apply Nat.eqb_neq in Hlen. rewrite Hlen. reflexivity. }
  assert (Hl : critic_learn_leaving st ac r ns d s = (Raise ShapeMismatchError, s)).
  { unfold critic_learn_leaving, bind_leaving, get_leaving, lift_leaving, modify_leaving.
    rewrite Hy, Hg. reflexivity. }
  split; [exact Hl|].
  rewrite critic_learn_leaving_agrees, Hl. reflexivity.
Qed.

End Sampled.

(** C3 on the instance: five stored transitions, batch size 2, every step
    a learning step, two passes per session. *)
Lemma learning_trigger_and_repetitions_witness :
  exists (a : list Q) (t : Transition) (session : list Call) (m_end : Replay_Buffer nat),
    calls_since (length (calls Demo.agent0)) Demo.after_iteration
    = CallConductAction a :: session ++ [CallSaveExperience t] /\
    memory Demo.after_iteration = add_experience m_end t /\
    (((batch_size (hyperparameters Demo.agent0) <= buffer_len (memory Demo.agent0))%Z /\
      (global_step_number Demo.agent0
         mod update_every_n_steps (hyperparameters Demo.agent0) = 0)%Z) /\
     sampled_session (hyperparameters Demo.agent0) (done Demo.after_iteration)
       (memory Demo.agent0)
       (Z.to_nat (learning_updates_per_learning_session (hyperparameters Demo.agent0)))
       session m_end /\
     session_calls (hyperparameters Demo.agent0) (done Demo.after_iteration)
       (Z.to_nat (learning_updates_per_learning_session (hyperparameters Demo.agent0)))
       session /\
     count_calls is_sample session
     = Z.to_nat (learning_updates_per_learning_session (hyperparameters Demo.agent0)) /\
     count_calls (is_optimisation_step CriticOptimizer) session
     = Z.to_nat (learning_updates_per_learning_session (hyperparameters Demo.agent0)) /\
     count_calls (is_optimisation_step ActorOptimizer) session
     = Z.to_nat (learning_updates_per_learning_session (hyperparameters Demo.agent0))
     \/
     ~ ((batch_size (hyperparameters Demo.agent0) <= buffer_len (memory Demo.agent0))%Z /\
        (global_step_number Demo.agent0
           mod update_every_n_steps (hyperparameters Demo.agent0) = 0)%Z) /\
     session = [] /\ m_end = memory Demo.agent0).
Proof.
  apply (@learning_trigger_and_repetitions Demo.backend Demo.agent0 Demo.after_iteration tt).
  reflexivity.
Defined.

(** C9 on the instance: the initialiser fills a network with a different
    constant at every call (1, 2, 3, 4 in this order), so the targets hold
    the constants of their locals only because of the copy. *)
Lemma targets_start_equal_to_locals_witness :
  critic_local (DDPG_init Demo.config) = [1; 1] /\
  critic_target (DDPG_init Demo.config) = [1; 1] /\
  actor_local (DDPG_init Demo.config) = [3] /\
  actor_target (DDPG_init Demo.config) = [3] /\
  critic_target (DDPG_init Demo.config) = critic_local (DDPG_init Demo.config) /\
  actor_target (DDPG_init Demo.config) = actor_local (DDPG_init Demo.config) /\
  calls (DDPG_init Demo.config) = [].
Proof.
  apply (@targets_start_equal_to_locals Demo.backend Demo.config).
  intros i i' a b k. simpl. rewrite !repeat_length. reflexivity.
Defined.

(** X13 on the instance: one row of states against two rows of actions. *)
Lemma critic_learn_rejects_mismatched_batch_witness :
  critic_learn_leaving [[1]] [[1]; [1]] [1; 2] [[2]; [3]] [0; 0] Demo.agent0
  = (Raise ShapeMismatchError, Demo.agent0) /\
  critic_learn [[1]] [[1]; [1]] [1; 2] [[2]; [3]] [0; 0] Demo.agent0
  = Raise ShapeMismatchError.
Proof.
  apply (@critic_learn_rejects_mismatched_batch Demo.backend Demo.agent0
           [[1]] [[1]; [1]] [1; 2] [[2]; [3]] [0; 0] DemoRuns.targets0).
  - reflexivity.
  - discriminate.
Defined.
